(** * AWSGuard security policies: a shallow embedding of [src/security.ts]

    The policies of [security.ts] are embedded as functions over an explicit
    model of the JavaScript values they read, of the AWS SDK calls they make
    and of the violations they report.

    Conventions of the embedding.
    - A property bag ([r.props], a resolved resource) is a finite map from
      property names to JavaScript values; reading a missing property gives
      [undefined].
    - Instants ([Date.now()], [Date.getTime()]) are integer milliseconds and
      [Math.floor (a / msInDay)] on integer milliseconds is floor division
      on [Z].  The day thresholds [maxDaysUntilExpiration] and [maxKeyAge]
      are [number]s in the source and whole numbers of days here, as the
      defaults 14 and 90 are: a fractional threshold and [NaN] are outside
      the embedding, and no statement is made about them.
    - An [async] validation body is a [Task]: a function of the world (the
      clock and the AWS endpoints) that returns how the body ended, and the
      SDK requests and violations it produced, in order.
    - A stack validation built by [validateTypedResources] calls its body
      and does not wait for it: the run of the validation ([ValidationRun])
      keeps apart how the call returns and the run of the body it has
      started.
    - A [do ... while] loop has no bound in the source; its embedding takes
      the number of iterations it may run ([pages]) and ends as [OutOfFuel]
      when that number does not suffice.  Termination of the source loop is
      the existence of a number of iterations that suffices. *)

From Stdlib Require Import ZArith List String Bool Lia.
From stdpp Require Import base option list strings gmap pretty.

Local Open Scope Z_scope.

(** ** JavaScript values *)

#[local] Set Warnings "-register-all".

Inductive JsValue : Type :=
| JUndefined
| JNull
| JBool (b : bool)
| JNum (n : Z)
| JStr (s : string)
| JArr (items : list JsValue)
| JObj (fields : list (string * JsValue)).

(** [ToBoolean]: what [!v] and [if (v)] test. *)
Definition truthy (v : JsValue) : bool :=
  match v with
  | JUndefined | JNull => false
  | JBool b => b
  | JNum n => negb (Z.eqb n 0)
  | JStr s => negb (String.eqb s "")
  | JArr _ | JObj _ => true
  end.

(** [ToString], as a template literal applies it to an interpolated value. *)
Fixpoint toString (v : JsValue) : string :=
  match v with
  | JUndefined => "undefined"
  | JNull => "null"
  | JBool true => "true"
  | JBool false => "false"
  | JNum n => pretty n
  | JStr s => s
  | JArr items =>
      (fix join (l : list JsValue) : string :=
         match l with
         | [] => ""
         | x :: rest =>
             let sx := match x with
                       | JUndefined | JNull => ""
                       | _ => toString x
                       end in
             match rest with
             | [] => sx
             | _ :: _ => sx +:+ "," +:+ join rest
             end
         end) items
  | JObj _ => "[object Object]"
  end.

(** [v === s] for a string [s]. *)
Definition strictEqStr (v : JsValue) (s : string) : bool :=
  match v with
  | JStr s' => String.eqb s' s
  | _ => false
  end.

(** [o === v] where [o] is an optional string field of an SDK response
    (absent is [undefined]). *)
Definition strictEqOptStr (o : option string) (v : JsValue) : bool :=
  match o, v with
  | Some s, _ => strictEqStr v s
  | None, JUndefined => true
  | None, _ => false
  end.

(** A property bag; [getProp] is the property read [o.k]. *)
Abbreviation Props := (gmap string JsValue).

Definition getProp (k : string) (o : Props) : JsValue :=
  default JUndefined (o !! k).

(** ** Resources and validation arguments ([@pulumi/policy]) *)

Record PolicyResource : Type := {
  type : string;
  props : Props
}.

Record StackValidationArgs : Type := {
  resources : list PolicyResource
}.

Record ResourceValidationArgs : Type := {
  rv_type : string;
  rv_props : Props
}.

Inductive EnforcementLevel : Type := disabled | advisory | mandatory.

(** ** AWS SDK responses *)

Record AccessKeyMetadata : Type := {
  AccessKeyId : option string;
  CreateDate : option Z
}.

Record ListAccessKeysResponse : Type := {
  AccessKeyMetadataList : list AccessKeyMetadata;
  IsTruncated : option bool;
  Marker : option string
}.

Record CertificateDetail : Type := {
  NotAfter : option Z
}.

Record DescribeCertificateResponse : Type := {
  Certificate : option CertificateDetail
}.

Record MFADevice : Type := {
  SerialNumber : string
}.

Record ListMFADevicesResponse : Type := {
  MFADevices : list MFADevice
}.

(** The promise of an SDK request either fulfils or rejects. *)
Inductive SdkResult (A : Type) : Type :=
| Fulfilled (a : A)
| Failed (err : string).
Arguments Fulfilled {A} a.
Arguments Failed {A} err.

(** ** The world a validation runs in

    The clock and the endpoints are oracles: the [k]-th reading of the clock,
    the answer to the [k]-th SDK request given its parameters.  A stateless
    endpoint ignores [k]; a scripted one ignores the parameters. *)
Record World : Type := {
  Date_now : nat -> Z;
  describeCertificate : nat -> JsValue -> SdkResult DescribeCertificateResponse;
  listAccessKeys : nat -> JsValue -> option string -> SdkResult ListAccessKeysResponse;
  listMFADevices : nat -> JsValue -> SdkResult ListMFADevicesResponse
}.

(** What a validation does that can be observed from outside. *)
Inductive Event : Type :=
| DescribeCertificate (CertificateArn : JsValue)
| ListAccessKeys (UserName : JsValue) (marker : option string)
| ListMFADevices (UserName : JsValue)
| Violation (message : string).

Record Counters : Type := {
  calls : nat;   (* SDK requests made so far *)
  reads : nat    (* clock readings made so far *)
}.

Inductive Outcome (A : Type) : Type :=
| Returned (a : A)
| Threw (err : string)
| OutOfFuel.
Arguments Returned {A} a.
Arguments Threw {A} err.
Arguments OutOfFuel {A}.

(** ** Tasks: the monad of validation bodies *)

Definition Task (A : Type) : Type :=
  World -> Counters -> Outcome A * Counters * list Event.

Definition ret {A} (a : A) : Task A :=
  fun _ c => (Returned a, c, []).

Definition bind {A B} (m : Task A) (k : A -> Task B) : Task B :=
  fun w c =>
    match m w c with
    | (Returned a, c1, es1) =>
        let '(o, c2, es2) := k a w c1 in (o, c2, es1 ++ es2)
    | (Threw err, c1, es1) => (Threw err, c1, es1)
    | (OutOfFuel, c1, es1) => (OutOfFuel, c1, es1)
    end.

#[global] Instance Task_ret : MRet Task := @ret.
#[global] Instance Task_bind : MBind Task := fun A B k m => bind m k.

Definition outOfFuel {A} : Task A :=
  fun _ c => (OutOfFuel, c, []).

(** The counters after one more SDK request, after one more clock reading. *)
Definition called (c : Counters) : Counters :=
  {| calls := S (calls c); reads := reads c |}.

Definition tick (c : Counters) : Counters :=
  {| calls := calls c; reads := S (reads c) |}.

(** [await request.promise()]: the request is logged, the endpoint answers,
    a rejection is thrown. *)
Definition awaitSdk {A} (ev : Event) (answer : World -> nat -> SdkResult A) : Task A :=
  fun w c =>
    match answer w (calls c) with
    | Fulfilled a => (Returned a, called c, [ev])
    | Failed err => (Threw err, called c, [ev])
    end.

(** [Date.now()] *)
Definition dateNow : Task Z :=
  fun w c => (Returned (Date_now w (reads c)), tick c, []).

(** [reportViolation(message)] *)
Definition reportViolation (message : string) : Task unit :=
  fun _ c => (Returned tt, c, [Violation message]).

(** [for (const x of xs) { body }] *)
Fixpoint forOf {A} (xs : list A) (body : A -> Task unit) : Task unit :=
  match xs with
  | [] => ret tt
  | x :: rest => body x ;; forOf rest body
  end.

(** ** Policies ([@pulumi/policy]) *)

(** A resource as a validation body sees it: its properties, and for a stack
    validation its type token under [__pulumiType]. *)
Abbreviation ResolvedResource := Props.

(** What a call of a stack validation comes to.  [returned] is how the call
    itself ends, which is all that its caller can wait for.  [floating] is
    the run of the promise that the validation has started and let go of:
    everything its body does from the call on, of which only the part
    before the body's first [await] precedes the return of the validation;
    its outcome is the settlement of that promise, which reaches nobody. *)
Record ValidationRun : Type := {
  returned : Outcome unit;
  floating : Outcome unit * Counters * list Event
}.

Definition StackValidation : Type :=
  StackValidationArgs -> World -> Counters -> ValidationRun.
Definition ResourceValidation : Type := ResourceValidationArgs -> Task unit.

Inductive Validation : Type :=
| validateStack (v : StackValidation)
| validateResource (v : ResourceValidation).

Record Policy : Type := {
  name : string;
  description : string;
  enforcementLevel : EnforcementLevel;
  validation : Validation
}.

(** A call that may [throw new Error(message)]. *)
Inductive Result (A : Type) : Type :=
| Ok (a : A)
| Throws (message : string).
Arguments Ok {A} a.
Arguments Throws {A} message.

(** The type tokens of the resource classes ([X.__pulumiType] in
    [@pulumi/aws]). *)
Definition acm_Certificate : string := "aws:acm/certificate:Certificate".
Definition kms_Key : string := "aws:kms/key:Key".
Definition iam_AccessKey : string := "aws:iam/accessKey:AccessKey".
Definition iam_UserLoginProfile : string := "aws:iam/userLoginProfile:UserLoginProfile".

(** [X.isInstance(o)] of [@pulumi/aws]: [o.__pulumiType === X.__pulumiType]. *)
Definition isInstance (pulumiType : string) (o : ResolvedResource) : bool :=
  strictEqStr (getProp "__pulumiType" o) pulumiType.

(** [validateTypedResource] of [@pulumi/policy]: the body runs on the
    properties of a resource of the given class, and is skipped for any
    other resource. *)
Definition validateTypedResource (pulumiType : string)
    (validate : ResolvedResource -> ResourceValidationArgs -> Task unit)
    : ResourceValidation :=
  fun args =>
    if negb (String.eqb (rv_type args) pulumiType) then mret tt
    else validate (rv_props args) args.

(** ** [security.ts] *)

(** Milliseconds in a day. *)
Definition msInDay : Z := 24 * 60 * 60 * 1000.

Record SecurityPolicySettings : Type := {
  acmCheckCertificateExpirationMaxDays : option Z;
  iamAccessKeysRotatedMaxDays : option Z
}.

(** Modelled from the spec: [getValueOrDefault] of [./util], which is not
    among the sources; section 4.3: "unspecified settings fall back to
    documented defaults", section 9: "a pure merge function (override if
    present, else default)". *)
Definition getValueOrDefault {A} (val : option A) (def : A) : A :=
  match val with
  | Some v => v
  | None => def
  end.

(** [{ ...r.props, __pulumiType: r.type }] *)
Definition resolve (r : PolicyResource) : ResolvedResource :=
  <["__pulumiType" := JStr (type r)]> (props r).

(** Utility method for defining a new StackValidation that will return the
    resources matching the provided type.  The arrow function that is
    returned ends with the statement [validate(resources, args,
    reportViolation);]: the promise of the [async] body is neither returned
    nor awaited.  The call of [validate] gives that promise and does not
    throw, so the validation returns at once and normally, whatever its
    body goes on to do. *)
Definition validateTypedResources
    (typeFilter : ResolvedResource -> bool)
    (validate : list ResolvedResource -> StackValidationArgs -> Task unit)
    : StackValidation :=
  fun args w c =>
    let resources := List.filter typeFilter (List.map resolve (resources args)) in
    {| returned := Returned tt;
       floating := validate resources args w c |}.

Definition acmViolationMessage (daysUntilExpiry maxDaysUntilExpiration : Z) : string :=
  "certificate expires in " +:+ pretty daysUntilExpiry +:+
  " (max allowed " +:+ pretty maxDaysUntilExpiration +:+ " days)".

(** The body of the [for] loop of [acmCheckCertificateExpiration]. *)
Definition acmCheckCertificate (maxDaysUntilExpiration : Z)
    (certInStack : ResolvedResource) : Task unit :=
  let CertificateArn := getProp "id" certInStack in
  describeCertResp ←
    awaitSdk (DescribeCertificate CertificateArn)
             (fun w k => describeCertificate w k CertificateArn);
  match Certificate describeCertResp with
  | Some certDescription =>
      match NotAfter certDescription with
      | Some notAfter =>
          now ← dateNow;
          let daysUntilExpiry := (notAfter - now) / msInDay in
          if daysUntilExpiry <? maxDaysUntilExpiration
          then reportViolation (acmViolationMessage daysUntilExpiry maxDaysUntilExpiration)
          else mret tt
      | None => mret tt
      end
  | None => mret tt
  end.

Definition acmCheckCertificateExpiration
    (enforcementLevel : option EnforcementLevel) (maxDaysUntilExpiration : Z) : Policy :=
  {| name := "acm-certificate-expiration";
     description := "Checks whether an ACM certificate has expired. Certificates provided by ACM are automatically renewed. ACM does not automatically renew certificates that you import.";
     enforcementLevel := default advisory enforcementLevel;
     validation := validateStack (validateTypedResources (isInstance acm_Certificate)
       (fun acmCertificates args =>
          forOf acmCertificates (acmCheckCertificate maxDaysUntilExpiration))) |}.

Definition cmkViolationMessage : string :=
  "CMK does not have the key rotation setting enabled".

Definition cmkCheckKey (instance : ResolvedResource) : Task unit :=
  if negb (truthy (getProp "enableKeyRotation" instance))
  then reportViolation cmkViolationMessage
  else mret tt.

Definition cmkBackingKeyRotationEnabled
    (enforcementLevel : option EnforcementLevel) : Policy :=
  {| name := "cmk-backing-key-rotation-enabled";
     description := "Checks that key rotation is enabled for each customer master key (CMK). Checks that key rotation is enabled for specific key object. Does not apply to CMKs that have imported key material.";
     enforcementLevel := default advisory enforcementLevel;
     validation := validateResource (validateTypedResource kms_Key
       (fun instance args => cmkCheckKey instance)) |}.

Definition iamViolationMessage (maxKeyAge daysSinceCreated : Z) : string :=
  "access key must be rotated within " +:+ pretty maxKeyAge +:+
  " days (key is " +:+ pretty daysSinceCreated +:+ " days old)".

(** The body of the inner [for] loop of [iamAccessKeysRotated]: one item of a
    page of access-key metadata. *)
Definition iamCheckMetadata (maxKeyAge : Z) (instance : ResolvedResource)
    (accessKey : AccessKeyMetadata) : Task unit :=
  if strictEqOptStr (AccessKeyId accessKey) (getProp "id" instance) then
    match CreateDate accessKey with
    | Some created =>
        now ← dateNow;
        let daysSinceCreated := (now - created) / msInDay in
        if daysSinceCreated >? maxKeyAge
        then reportViolation (iamViolationMessage maxKeyAge daysSinceCreated)
        else mret tt
    | None => mret tt
    end
  else mret tt.

(** The [do ... while (accessKeysResp.IsTruncated)] loop, run for at most
    [pages] iterations. *)
Fixpoint iamListPages (pages : nat) (maxKeyAge : Z) (instance : ResolvedResource)
    (paginationToken : option string) : Task unit :=
  match pages with
  | O => outOfFuel
  | S pages' =>
      let UserName := getProp "user" instance in
      accessKeysResp ←
        awaitSdk (ListAccessKeys UserName paginationToken)
                 (fun w k => listAccessKeys w k UserName paginationToken);
      forOf (AccessKeyMetadataList accessKeysResp)
            (iamCheckMetadata maxKeyAge instance);;
      let paginationToken := Marker accessKeysResp in
      if default false (IsTruncated accessKeysResp)
      then iamListPages pages' maxKeyAge instance paginationToken
      else mret tt
  end.

(** The body of the outer [for] loop of [iamAccessKeysRotated]. *)
Definition iamCheckAccessKey (pages : nat) (maxKeyAge : Z)
    (instance : ResolvedResource) : Task unit :=
  (* Skip any access keys that haven't yet been provisioned or whose status
     is inactive. *)
  if negb (truthy (getProp "id" instance))
     || negb (strictEqStr (getProp "status" instance) "Active")
  then mret tt
  else iamListPages pages maxKeyAge instance None.

(** [pages] is the parameter of the embedding that bounds each run of the
    pagination loop; the source has no such parameter. *)
Definition iamAccessKeysRotated (pages : nat)
    (enforcementLevel : option EnforcementLevel) (maxKeyAge : Z) : Result Policy :=
  if (maxKeyAge <? 1) || (maxKeyAge >? 2 * 365) then
    Throws "Invalid maxKeyAge."
  else
    Ok {| name := "access-keys-rotated";
          description := "Checks whether an access key have been rotated within maxKeyAge days.";
          enforcementLevel := default advisory enforcementLevel;
          validation := validateStack (validateTypedResources (isInstance iam_AccessKey)
            (fun accessKeys args =>
               forOf accessKeys (iamCheckAccessKey pages maxKeyAge))) |}.

Definition mfaViolationMessage (user : JsValue) : string :=
  "no MFA device enabled for IAM User '" +:+ toString user +:+ "'".

Definition mfaCheckLoginProfile (instance : ResolvedResource) : Task unit :=
  let UserName := getProp "user" instance in
  mfaDevicesResp ←
    awaitSdk (ListMFADevices UserName) (fun w k => listMFADevices w k UserName);
  (* We don't bother with paging through all MFA devices, since we only
     check that there is at least one. *)
  if Nat.eqb (length (MFADevices mfaDevicesResp)) 0
  then reportViolation (mfaViolationMessage (getProp "user" instance))
  else mret tt.

Definition iamMfaEnabledForConsoleAccess
    (enforcementLevel : option EnforcementLevel) : Policy :=
  {| name := "mfa-enabled-for-iam-console-access";
     description := "Checks whether multi-factor Authentication (MFA) is enabled for an IAM user that use a console password.";
     enforcementLevel := default advisory enforcementLevel;
     validation := validateResource (validateTypedResource iam_UserLoginProfile
       (fun instance args => mfaCheckLoginProfile instance)) |}.

(** getPolicies returns all Compute policies. *)
Definition getPolicies (pages : nat) (enforcement : EnforcementLevel)
    (settings : SecurityPolicySettings) : Result (list Policy) :=
  let acm := acmCheckCertificateExpiration (Some enforcement)
               (getValueOrDefault (acmCheckCertificateExpirationMaxDays settings) 14) in
  let cmk := cmkBackingKeyRotationEnabled (Some enforcement) in
  match iamAccessKeysRotated pages (Some enforcement)
          (getValueOrDefault (iamAccessKeysRotatedMaxDays settings) 90) with
  | Throws message => Throws message
  | Ok iam => Ok [acm; cmk; iam; iamMfaEnabledForConsoleAccess (Some enforcement)]
  end.

(** ** Reading the events of a run *)

(** The violations among the events of a task, in report order. *)
Definition violationsOf (es : list Event) : list string :=
  omap (fun e => match e with Violation m => Some m | _ => None end) es.

(** The SDK requests among the events of a task. *)
Definition requestsOf (es : list Event) : list Event :=
  List.filter (fun e => match e with Violation _ => false | _ => true end) es.

(** ** Runs of the pagination loop *)

(** The answer to the [i]-th request of a run of the pagination loop that
    starts with the [k]-th SDK request of the validation and with
    [paginationToken]: each request carries the [Marker] of the page
    before. *)
Fixpoint pageSeen (w : World) (UserName : JsValue) (k : nat)
    (paginationToken : option string) (i : nat) : SdkResult ListAccessKeysResponse :=
  match i with
  | O => listAccessKeys w k UserName paginationToken
  | S i' =>
      match listAccessKeys w k UserName paginationToken with
      | Fulfilled r => pageSeen w UserName (S k) (Marker r) i'
      | Failed err => Failed err
      end
  end.

(** A run ends within [bound] SDK requests: some number of iterations
    suffices for it to return or throw, and it has then made at most
    [bound] requests. *)
Definition endsWithin (bound : nat) (run : nat -> Task unit)
    (w : World) (c : Counters) : Prop :=
  exists pages o c' es,
    run pages w c = (o, c', es) /\ o ≠ OutOfFuel /\ (calls c' <= calls c + bound)%nat.

(** ** Sample stacks and worlds *)

Definition sampleBucket : PolicyResource :=
  {| type := "aws:s3/bucket:Bucket"; props := {[ "id" := JStr "logs" ]} |}.

Definition sampleCertificate : PolicyResource :=
  {| type := acm_Certificate; props := {[ "id" := JStr "arn:aws:acm:cert/1" ]} |}.

Definition sampleInactiveKey : PolicyResource :=
  {| type := iam_AccessKey;
     props := {[ "id" := JStr "AKIA1"; "status" := JStr "Inactive";
                 "user" := JStr "alice" ]} |}.

Definition sampleActiveKey : PolicyResource :=
  {| type := iam_AccessKey;
     props := {[ "id" := JStr "AKIA2"; "status" := JStr "Active";
                 "user" := JStr "bob" ]} |}.

(** A world where every endpoint answers with an empty result. *)
Definition quietWorld : World :=
  {| Date_now := fun _ => 0;
     describeCertificate := fun _ _ => Fulfilled {| Certificate := None |};
     listAccessKeys := fun _ _ _ =>
       Fulfilled {| AccessKeyMetadataList := []; IsTruncated := None; Marker := None |};
     listMFADevices := fun _ _ => Fulfilled {| MFADevices := [] |} |}.

Definition atStart : Counters := {| calls := 0; reads := 0 |}.

Definition sampleUnprovisionedKey : PolicyResource :=
  {| type := iam_AccessKey;
     props := {[ "status" := JStr "Active"; "user" := JStr "dave" ]} |}.

(** The metadata of the key of [sampleActiveKey], created on day 50, and
    that of another key of the same user. *)
Definition sampleMetadata : AccessKeyMetadata :=
  {| AccessKeyId := Some "AKIA2"; CreateDate := Some (50 * msInDay) |}.

Definition otherMetadata : AccessKeyMetadata :=
  {| AccessKeyId := Some "AKIA0"; CreateDate := Some 0 |}.

Definition sampleKmsKey : PolicyResource :=
  {| type := kms_Key; props := {[ "description" := JStr "backups" ]} |}.

Definition sampleLoginProfile : PolicyResource :=
  {| type := iam_UserLoginProfile; props := {[ "user" := JStr "carol" ]} |}.

(** A provider whose listing of access keys has three pages, chained by
    their markers; the key of [sampleActiveKey] is on the second one. *)
Definition pagedWorld : World :=
  {| Date_now := fun _ => 200 * msInDay + 1;
     describeCertificate := fun _ _ =>
       Fulfilled {| Certificate := Some {| NotAfter := Some (205 * msInDay) |} |};
     listAccessKeys := fun _ _ paginationToken =>
       match paginationToken with
       | None =>
           Fulfilled {| AccessKeyMetadataList :=
                          [ otherMetadata ];
                        IsTruncated := Some true; Marker := Some "page2" |}
       | Some t =>
           if String.eqb t "page2" then
             Fulfilled {| AccessKeyMetadataList :=
                            [ sampleMetadata ];
                          IsTruncated := Some true; Marker := Some "page3" |}
           else
             Fulfilled {| AccessKeyMetadataList := [];
                          IsTruncated := Some false; Marker := None |}
       end;
     listMFADevices := fun _ _ =>
       Fulfilled {| MFADevices := [ {| SerialNumber := "arn:aws:iam::mfa/carol" |} ] |} |}.

(** A provider that signals one more page of access keys after every page. *)
Definition endlessWorld : World :=
  {| Date_now := fun _ => 0;
     describeCertificate := fun _ _ => Fulfilled {| Certificate := None |};
     listAccessKeys := fun _ _ _ =>
       Fulfilled {| AccessKeyMetadataList := [];
                    IsTruncated := Some true; Marker := Some "more" |};
     listMFADevices := fun _ _ => Fulfilled {| MFADevices := [] |} |}.

(** A provider whose description of a certificate carries no expiry, and
    whose access-key endpoint is unavailable. *)
Definition noExpiryWorld : World :=
  {| Date_now := fun _ => 200 * msInDay;
     describeCertificate := fun _ _ =>
       Fulfilled {| Certificate := Some {| NotAfter := None |} |};
     listAccessKeys := fun _ _ _ => Failed "ServiceUnavailable";
     listMFADevices := fun _ _ => Fulfilled {| MFADevices := [] |} |}.

(** ** Reading a run of a validation *)

(** A resource of the class with the given type token. *)
Definition hasType (pulumiType : string) (r : PolicyResource) : bool :=
  String.eqb (type r) pulumiType.

(** An access key that the outer loop of [iamAccessKeysRotated] does not
    skip: provisioned, with status "Active". *)
Definition isActiveKey (instance : ResolvedResource) : bool :=
  truthy (getProp "id" instance)
  && strictEqStr (getProp "status" instance) "Active".

(** The marker that the [i]-th request of a run of the pagination loop
    carries, for a run that starts with the [k]-th SDK request of the
    validation and with [paginationToken]. *)
Fixpoint tokenSent (w : World) (UserName : JsValue) (k : nat)
    (paginationToken : option string) (i : nat) : option string :=
  match i with
  | O => paginationToken
  | S i' =>
      match listAccessKeys w k UserName paginationToken with
      | Fulfilled r => tokenSent w UserName (S k) (Marker r) i'
      | Failed _ => paginationToken
      end
  end.

(** The age in whole days for which an item of access-key metadata is
    reported at instant [now], if it is. *)
Definition overdueDays (maxKeyAge : Z) (instance : ResolvedResource) (now : Z)
    (accessKey : AccessKeyMetadata) : option Z :=
  if strictEqOptStr (AccessKeyId accessKey) (getProp "id" instance) then
    created ← CreateDate accessKey;
    let daysSinceCreated := (now - created) / msInDay in
    if daysSinceCreated >? maxKeyAge then Some daysSinceCreated else None
  else None.

(** The items of the pages [0] to [n] of a run of the pagination loop, in
    the order in which the loop meets them. *)
Fixpoint itemsSeen (w : World) (UserName : JsValue) (k : nat)
    (paginationToken : option string) (n : nat) : list AccessKeyMetadata :=
  match listAccessKeys w k UserName paginationToken with
  | Fulfilled r =>
      AccessKeyMetadataList r ++
      match n with
      | O => []
      | S n' => itemsSeen w UserName (S k) (Marker r) n'
      end
  | Failed _ => []
  end.

(** A certificate that has no id yet. *)
Definition sampleUnissuedCertificate : PolicyResource :=
  {| type := acm_Certificate; props := {[ "domainName" := JStr "example.org" ]} |}.

(** A provider none of whose endpoints can be reached. *)
Definition outageWorld : World :=
  {| Date_now := fun _ => 200 * msInDay;
     describeCertificate := fun _ _ => Failed "ServiceUnavailable";
     listAccessKeys := fun _ _ _ => Failed "ServiceUnavailable";
     listMFADevices := fun _ _ => Failed "ServiceUnavailable" |}.

(** A provider that marks its only page of access keys as truncated but
    gives no marker to continue from. *)
Definition restartWorld : World :=
  {| Date_now := fun _ => 200 * msInDay;
     describeCertificate := fun _ _ => Fulfilled {| Certificate := None |};
     listAccessKeys := fun _ _ _ =>
       Fulfilled {| AccessKeyMetadataList := [ sampleMetadata ];
                    IsTruncated := Some true; Marker := None |};
     listMFADevices := fun _ _ => Fulfilled {| MFADevices := [] |} |}.

(** A provider that answers the first SDK request and throttles every
    later one. *)
Definition flakyWorld : World :=
  {| Date_now := fun _ => 200 * msInDay;
     describeCertificate := fun k _ =>
       match k with
       | O => Fulfilled {| Certificate := Some {| NotAfter := Some (203 * msInDay) |} |}
       | S _ => Failed "Throttling"
       end;
     listAccessKeys := fun k _ _ =>
       match k with
       | O => Fulfilled {| AccessKeyMetadataList := [ sampleMetadata ];
                           IsTruncated := None; Marker := None |}
       | S _ => Failed "Throttling"
       end;
     listMFADevices := fun _ _ => Failed "Throttling" |}.

(** A provider whose certificates expired ten days ago, less a
    millisecond. *)
Definition lapsedWorld : World :=
  {| Date_now := fun _ => 200 * msInDay;
     describeCertificate := fun _ _ =>
       Fulfilled {| Certificate := Some {| NotAfter := Some (190 * msInDay + 1) |} |};
     listAccessKeys := fun _ _ _ =>
       Fulfilled {| AccessKeyMetadataList := []; IsTruncated := None; Marker := None |};
     listMFADevices := fun _ _ => Fulfilled {| MFADevices := [] |} |}.

(** * Properties *)

(** ** Running tasks *)

Lemma run_bind {A B} (m : Task A) (k : A -> Task B) w c :
  (m ≫= k) w c =
  match m w c with
  | (Returned a, c1, es1) =>
      let '(o, c2, es2) := k a w c1 in (o, c2, es1 ++ es2)
  | (Threw err, c1, es1) => (Threw err, c1, es1)
  | (OutOfFuel, c1, es1) => (OutOfFuel, c1, es1)
  end.
Proof. reflexivity. Qed.

Lemma run_ret {A} (a : A) w c : (mret a : Task A) w c = (Returned a, c, []).
Proof. reflexivity. Qed.

Lemma run_bind_returned {A B} (m : Task A) (k : A -> Task B) w c a c1 es1 :
  m w c = (Returned a, c1, es1) ->
  (m ≫= k) w c = (let '(o, c2, es2) := k a w c1 in (o, c2, es1 ++ es2)).
Proof. intros H. rewrite run_bind, H. reflexivity. Qed.

Lemma run_bind_silent {A B} (m : Task A) (k : A -> Task B) w c a :
  m w c = (Returned a, c, []) -> (m ≫= k) w c = k a w c.
Proof.
  intros H. rewrite (run_bind_returned _ _ _ _ _ _ _ H).
  destruct (k a w c) as [[o c2] es2]. reflexivity.
Qed.

Lemma forOf_nil {A} (body : A -> Task unit) w c :
  forOf [] body w c = (Returned tt, c, []).
Proof. reflexivity. Qed.

Lemma forOf_cons {A} (x : A) xs (body : A -> Task unit) :
  forOf (x :: xs) body = (body x ≫= fun _ => forOf xs body).
Proof. reflexivity. Qed.

(** An iteration that does nothing can be dropped from a [for] loop. *)
Lemma forOf_skip {A} (body : A -> Task unit) (before after : list A) (x : A) :
  (forall w c, body x w c = (Returned tt, c, [])) ->
  forall w c, forOf (before ++ x :: after) body w c = forOf (before ++ after) body w c.
Proof.
  intros Hx. induction before as [|y before IH]; intros w c.
  - simpl app. rewrite forOf_cons.
    rewrite (run_bind_silent _ _ _ _ tt (Hx w c)). reflexivity.
  - simpl app. rewrite !forOf_cons, !run_bind.
    destruct (body y w c) as [[[[]| |] c1] es1]; [|reflexivity..].
    rewrite IH. reflexivity.
Qed.

(** ** The typed filter *)

Lemma getProp_resolve_type (r : PolicyResource) :
  getProp "__pulumiType" (resolve r) = JStr (type r).
Proof. unfold getProp, resolve. rewrite lookup_insert_eq. reflexivity. Qed.

Lemma getProp_resolve_other (k : string) (r : PolicyResource) :
  k ≠ "__pulumiType" -> getProp k (resolve r) = getProp k (props r).
Proof.
  intros Hk. unfold getProp, resolve.
  rewrite lookup_insert_ne by congruence. reflexivity.
Qed.

(** Matching is on the type token of the resource alone. *)
Lemma isInstance_resolve (pulumiType : string) (r : PolicyResource) :
  isInstance pulumiType (resolve r) = true <-> type r = pulumiType.
Proof.
  unfold isInstance. rewrite getProp_resolve_type. simpl.
  apply String.eqb_eq.
Qed.

Lemma filter_sublist_bool {A} (f : A -> bool) (l : list A) :
  sublist (List.filter f l) l.
Proof.
  induction l as [|x l IH]; simpl.
  - constructor.
  - destruct (f x); [apply sublist_skip | apply sublist_cons]; exact IH.
Qed.

Lemma filter_none {A} (f : A -> bool) (l : list A) :
  (forall x, In x l -> f x = false) -> List.filter f l = [].
Proof.
  induction l as [|x l IH]; intros H; simpl; [reflexivity|].
  rewrite (H x) by (left; reflexivity).
  apply IH. intros y Hy. apply H. right. exact Hy.
Qed.

Lemma no_instance_filter (pulumiType : string) (rs : list PolicyResource) :
  (forall r, In r rs -> type r ≠ pulumiType) ->
  List.filter (isInstance pulumiType) (List.map resolve rs) = [].
Proof.
  intros H. apply filter_none. intros o Ho.
  apply in_map_iff in Ho as (r & <- & Hr).
  destruct (isInstance pulumiType (resolve r)) eqn:E; [|reflexivity].
  apply isInstance_resolve in E. destruct (H r Hr E).
Qed.

Lemma filter_In_bool {A} (f : A -> bool) (l : list A) (x : A) :
  In x (List.filter f l) <-> In x l /\ f x = true.
Proof. apply filter_In. Qed.

(** A stack validation that loops over the matching resources does nothing
    when there is none. *)
Lemma validateTypedResources_no_match (pulumiType : string)
    (body : ResolvedResource -> Task unit) (args : StackValidationArgs) w c :
  (forall r, In r (resources args) -> type r ≠ pulumiType) ->
  validateTypedResources (isInstance pulumiType)
    (fun rs _ => forOf rs body) args w c
  = {| returned := Returned tt; floating := (Returned tt, c, []) |}.
Proof.
  intros H. unfold validateTypedResources.
  rewrite (no_instance_filter _ _ H). reflexivity.
Qed.

Lemma filter_map_comm {A B} (f : B -> bool) (g : A -> B) (l : list A) :
  List.filter f (List.map g l) = List.map g (List.filter (fun x => f (g x)) l).
Proof.
  induction l as [|x l IH]; simpl; [reflexivity|].
  destruct (f (g x)); simpl; congruence.
Qed.

(** C5: [validateTypedResources] hands the validation body exactly the
    resources of the input that satisfy the type predicate, in the order of
    the input, each as the object of its properties with its type token
    under [__pulumiType]; the validation itself returns without error.  When
    no resource matches, the body receives the empty list, and the two
    stack policies built on it then make no SDK request and report no
    violation. *)
Theorem validateTypedResources_passes_matching
    (typeFilter : ResolvedResource -> bool)
    (validate : list ResolvedResource -> StackValidationArgs -> Task unit)
    (args : StackValidationArgs) w c :
  let object (r : PolicyResource) : ResolvedResource :=
    <["__pulumiType" := JStr (type r)]> (props r) in
  let matching :=
    List.filter (fun r => typeFilter (object r)) (resources args) in
  validateTypedResources typeFilter validate args w c
  = {| returned := Returned tt;
       floating := validate (List.map object matching) args w c |}
  /\ sublist matching (resources args)
  /\ (forall r, In r matching <->
                In r (resources args) /\ typeFilter (object r) = true)
  /\ ((forall r, In r (resources args) -> typeFilter (object r) = false) ->
      validateTypedResources typeFilter validate args w c
      = {| returned := Returned tt; floating := validate [] args w c |})
  /\ (forall level maxDays,
        (forall r, In r (resources args) -> type r ≠ acm_Certificate) ->
        exists v,
          validation (acmCheckCertificateExpiration level maxDays) = validateStack v
          /\ v args w c
             = {| returned := Returned tt; floating := (Returned tt, c, []) |})
  /\ (forall pages level maxKeyAge p,
        iamAccessKeysRotated pages level maxKeyAge = Ok p ->
        (forall r, In r (resources args) -> type r ≠ iam_AccessKey) ->
        exists v,
          validation p = validateStack v
          /\ v args w c
             = {| returned := Returned tt; floating := (Returned tt, c, []) |}).
Proof.
  intros object matching.
  assert (Hpassed : List.filter typeFilter (List.map resolve (resources args))
                    = List.map object matching).
  { apply (filter_map_comm typeFilter resolve). }
  split; [|split; [|split; [|split; [|split]]]].
  - unfold validateTypedResources. rewrite Hpassed. reflexivity.
  - apply filter_sublist_bool.
  - intros r. unfold matching. apply filter_In.
  - intros Hnone. unfold validateTypedResources. rewrite Hpassed.
    unfold matching. rewrite (filter_none _ _ Hnone). reflexivity.
  - intros level maxDays Hno. eexists. split; [reflexivity|].
    apply (validateTypedResources_no_match acm_Certificate). exact Hno.
  - intros pages level maxKeyAge p Hp Hno.
    unfold iamAccessKeysRotated in Hp.
    destruct ((maxKeyAge <? 1) || (maxKeyAge >? 2 * 365)); [discriminate|].
    injection Hp as <-. eexists. split; [reflexivity|].
    apply (validateTypedResources_no_match iam_AccessKey). exact Hno.
Qed.

Lemma validateTypedResources_passes_matching_witness :
  let named (rs : list ResolvedResource) (_ : StackValidationArgs) : Task unit :=
    forOf rs (fun o => reportViolation (toString (getProp "id" o))) in
  let stack := [sampleBucket; sampleActiveKey; sampleCertificate; sampleInactiveKey] in
  floating (validateTypedResources (isInstance iam_AccessKey) named
              {| resources := stack |} quietWorld atStart)
  = (Returned tt, atStart, [Violation "AKIA2"; Violation "AKIA1"])
  /\ validateTypedResources (isInstance kms_Key) named
       {| resources := stack |} quietWorld atStart
     = {| returned := Returned tt; floating := (Returned tt, atStart, []) |}
  /\ (exists p v,
        iamAccessKeysRotated 5 None 90 = Ok p
        /\ validation p = validateStack v
        /\ v {| resources := [sampleBucket; sampleCertificate] |} quietWorld atStart
           = {| returned := Returned tt; floating := (Returned tt, atStart, []) |}).
Proof.
  intros named stack. split; [|split].
  - destruct (validateTypedResources_passes_matching (isInstance iam_AccessKey)
                named {| resources := stack |} quietWorld atStart)
      as (Hpassed & _).
    rewrite Hpassed. reflexivity.
  - destruct (validateTypedResources_passes_matching (isInstance kms_Key)
                named {| resources := stack |} quietWorld atStart)
      as (_ & _ & _ & Hnone & _).
    rewrite Hnone; [reflexivity|].
    intros r [<-|[<-|[<-|[<-|[]]]]]; reflexivity.
  - destruct (validateTypedResources_passes_matching (isInstance kms_Key)
                named {| resources := [sampleBucket; sampleCertificate] |}
                quietWorld atStart)
      as (_ & _ & _ & _ & _ & Hiam).
    destruct (Hiam 5%nat None 90 _ eq_refl) as (v & Hv & Hrun).
    + intros r [<-|[<-|[]]]; discriminate.
    + eexists _, v. split; [reflexivity|]. split; [exact Hv | exact Hrun].
Defined.

(** ** Access keys: one item of a page *)

(** What [iamCheckMetadata] does, case by case. *)
Lemma iamCheckMetadata_run maxKeyAge instance accessKey w c :
  iamCheckMetadata maxKeyAge instance accessKey w c =
  if strictEqOptStr (AccessKeyId accessKey) (getProp "id" instance) then
    match CreateDate accessKey with
    | Some created =>
        let daysSinceCreated := (Date_now w (reads c) - created) / msInDay in
        (Returned tt, tick c,
         if daysSinceCreated >? maxKeyAge
         then [Violation (iamViolationMessage maxKeyAge daysSinceCreated)]
         else [])
    | None => (Returned tt, c, [])
    end
  else (Returned tt, c, []).
Proof.
  unfold iamCheckMetadata.
  destruct (strictEqOptStr _ _); [|reflexivity].
  destruct (CreateDate accessKey) as [created|]; [|reflexivity].
  rewrite run_bind. cbn -[Z.div Z.gtb msInDay iamViolationMessage].
  destruct (_ >? _); reflexivity.
Qed.

(** An item never fails, never makes an SDK request, and produces nothing
    but violations. *)
Lemma iamCheckMetadata_returns maxKeyAge instance accessKey w c :
  exists c' es,
    iamCheckMetadata maxKeyAge instance accessKey w c = (Returned tt, c', es)
    /\ calls c' = calls c
    /\ requestsOf es = [].
Proof.
  rewrite iamCheckMetadata_run.
  destruct (strictEqOptStr _ _); [|eexists _, _; split; [reflexivity|split; reflexivity]].
  destruct (CreateDate accessKey) as [created|];
    [|eexists _, _; split; [reflexivity|split; reflexivity]].
  cbv zeta. eexists _, _. split; [reflexivity|]. split; [reflexivity|].
  destruct (_ >? _); reflexivity.
Qed.

Lemma requestsOf_app es1 es2 :
  requestsOf (es1 ++ es2) = requestsOf es1 ++ requestsOf es2.
Proof. apply List.filter_app. Qed.

(** A whole page never fails and makes no SDK request. *)
Lemma iamCheckPage_returns maxKeyAge instance items w c :
  exists c' es,
    forOf items (iamCheckMetadata maxKeyAge instance) w c = (Returned tt, c', es)
    /\ calls c' = calls c
    /\ requestsOf es = [].
Proof.
  revert c. induction items as [|accessKey items IH]; intros c.
  - eexists _, _. split; [apply forOf_nil|]. split; reflexivity.
  - destruct (iamCheckMetadata_returns maxKeyAge instance accessKey w c)
      as (c1 & es1 & H1 & Hc1 & Hr1).
    destruct (IH c1) as (c2 & es2 & H2 & Hc2 & Hr2).
    exists c2, (es1 ++ es2).
    rewrite forOf_cons, (run_bind_returned _ _ _ _ _ _ _ H1), H2.
    split; [reflexivity|]. split; [congruence|].
    rewrite requestsOf_app, Hr1, Hr2. reflexivity.
Qed.

(** A provisioned resource has a truthy [id]; an SDK key id equal to it is
    therefore a string equal to it. *)
Lemma strictEqOptStr_truthy (o : option string) (v : JsValue) :
  truthy v = true -> strictEqOptStr o v = true ->
  exists s, o = Some s /\ v = JStr s.
Proof.
  intros Ht He. destruct o as [s|].
  - exists s. split; [reflexivity|]. destruct v; simpl in He; try discriminate.
    apply String.eqb_eq in He. congruence.
  - destruct v; simpl in *; discriminate.
Qed.

(** C8: an item of fetched access-key metadata produces a violation only if
    its [AccessKeyId] equals the [id] of the resource under validation and it
    carries a [CreateDate]; any other item is dropped without any effect (no
    clock reading, no request, no violation), and so is a whole page of such
    items. *)
Theorem iamCheckMetadata_correlates maxKeyAge (instance : ResolvedResource)
    (accessKey : AccessKeyMetadata) w c :
  let correlated :=
    strictEqOptStr (AccessKeyId accessKey) (getProp "id" instance)
    && bool_decide (is_Some (CreateDate accessKey)) in
  (forall o c' es message,
      iamCheckMetadata maxKeyAge instance accessKey w c = (o, c', es) ->
      In (Violation message) es ->
      correlated = true
      /\ (truthy (getProp "id" instance) = true ->
          exists s, AccessKeyId accessKey = Some s /\ getProp "id" instance = JStr s))
  /\ (correlated = false ->
      iamCheckMetadata maxKeyAge instance accessKey w c = (Returned tt, c, []))
  /\ (forall items,
      (forall item, In item items ->
         strictEqOptStr (AccessKeyId item) (getProp "id" instance)
         && bool_decide (is_Some (CreateDate item)) = false) ->
      forOf items (iamCheckMetadata maxKeyAge instance) w c = (Returned tt, c, [])).
Proof.
  intros correlated. unfold correlated. clear correlated. split; [|split].
  - intros o c' es message Hrun Hin. rewrite iamCheckMetadata_run in Hrun.
    destruct (strictEqOptStr _ _) eqn:Heq.
    + destruct (CreateDate accessKey) as [created|].
      * split; [reflexivity|]. intros Ht.
        apply (strictEqOptStr_truthy _ _ Ht Heq).
      * injection Hrun as _ _ <-. destruct Hin.
    + injection Hrun as _ _ <-. destruct Hin.
  - intros H. rewrite iamCheckMetadata_run.
    destruct (strictEqOptStr _ _); [|reflexivity].
    destruct (CreateDate accessKey); [discriminate|reflexivity].
  - intros items. revert c. induction items as [|item items IH]; intros c Hnone.
    + reflexivity.
    + rewrite forOf_cons.
      assert (Hitem : iamCheckMetadata maxKeyAge instance item w c = (Returned tt, c, [])).
      { rewrite iamCheckMetadata_run.
        specialize (Hnone item (or_introl eq_refl)).
        destruct (strictEqOptStr _ _); [|reflexivity].
        destruct (CreateDate item); [discriminate|reflexivity]. }
      rewrite (run_bind_silent _ _ _ _ tt Hitem).
      apply IH. intros item' Hin. apply Hnone. right. exact Hin.
Qed.

Lemma iamCheckMetadata_correlates_witness :
  iamCheckMetadata 90 (resolve sampleActiveKey) otherMetadata pagedWorld atStart
  = (Returned tt, atStart, [])
  /\ forOf [otherMetadata; {| AccessKeyId := Some "AKIA2"; CreateDate := None |}]
        (iamCheckMetadata 90 (resolve sampleActiveKey)) pagedWorld atStart
     = (Returned tt, atStart, [])
  /\ (exists s, AccessKeyId sampleMetadata = Some s
                /\ getProp "id" (resolve sampleActiveKey) = JStr s).
Proof.
  split; [|split].
  - destruct (iamCheckMetadata_correlates 90 (resolve sampleActiveKey) otherMetadata
                pagedWorld atStart) as (_ & Hdrop & _).
    apply Hdrop. reflexivity.
  - destruct (iamCheckMetadata_correlates 90 (resolve sampleActiveKey) otherMetadata
                pagedWorld atStart) as (_ & _ & Hpage).
    apply Hpage. intros item [<-|[<-|[]]]; reflexivity.
  - destruct (iamCheckMetadata_correlates 90 (resolve sampleActiveKey) sampleMetadata
                pagedWorld atStart) as (Honly & _ & _).
    destruct (Honly (Returned tt) (tick atStart)
                [Violation "access key must be rotated within 90 days (key is 150 days old)"]
                "access key must be rotated within 90 days (key is 150 days old)")
      as (_ & Hid).
    + reflexivity.
    + left. reflexivity.
    + apply Hid. reflexivity.
Defined.


Lemma msInDay_pos : 0 < msInDay.
Proof. reflexivity. Qed.

(** C9: for an item that correlates with the resource, the age is the floor
    of [(now - CreateDate) / msInDay] and a violation is reported exactly
    when that age is strictly greater than [maxKeyAge]; a key whose floored
    age equals [maxKeyAge] produces no violation. *)
Theorem iamCheckMetadata_strictly_older maxKeyAge (instance : ResolvedResource)
    (accessKey : AccessKeyMetadata) (s : string) (created : Z) w c :
  getProp "id" instance = JStr s ->
  AccessKeyId accessKey = Some s ->
  CreateDate accessKey = Some created ->
  let now := Date_now w (reads c) in
  let daysSinceCreated := (now - created) / msInDay in
  let events := snd (iamCheckMetadata maxKeyAge instance accessKey w c) in
  iamCheckMetadata maxKeyAge instance accessKey w c =
    (Returned tt, tick c,
     if daysSinceCreated >? maxKeyAge
     then [Violation (iamViolationMessage maxKeyAge daysSinceCreated)]
     else [])
  /\ msInDay * daysSinceCreated <= now - created < msInDay * (daysSinceCreated + 1)
  /\ (daysSinceCreated = maxKeyAge -> events = [])
  /\ (daysSinceCreated > maxKeyAge <->
      events = [Violation (iamViolationMessage maxKeyAge daysSinceCreated)])
  /\ (daysSinceCreated <= maxKeyAge <-> events = []).
Proof.
  intros Hid Hkey Hdate now daysSinceCreated events.
  assert (Hrun : iamCheckMetadata maxKeyAge instance accessKey w c =
    (Returned tt, tick c,
     if daysSinceCreated >? maxKeyAge
     then [Violation (iamViolationMessage maxKeyAge daysSinceCreated)]
     else [])).
  { rewrite iamCheckMetadata_run, Hid, Hkey, Hdate. simpl strictEqOptStr.
    rewrite String.eqb_refl. reflexivity. }
  assert (Hev : events =
     if daysSinceCreated >? maxKeyAge
     then [Violation (iamViolationMessage maxKeyAge daysSinceCreated)]
     else []).
  { unfold events. rewrite Hrun. reflexivity. }
  split; [exact Hrun|]. split.
  { pose proof (Z.mul_div_le (now - created) msInDay msInDay_pos).
    pose proof (Z.mul_succ_div_gt (now - created) msInDay msInDay_pos).
    fold daysSinceCreated in H, H0. lia. }
  rewrite Hev. clear Hev Hrun events.
  destruct (Z.gtb_spec daysSinceCreated maxKeyAge) as [Hgt|Hle].
  - split; [lia|]. split; [split; [reflexivity | lia]|].
    split; [lia | discriminate].
  - split; [reflexivity|]. split; [split; [lia | discriminate]|].
    split; [reflexivity | lia].
Qed.

Lemma iamCheckMetadata_strictly_older_witness :
  snd (iamCheckMetadata 150 (resolve sampleActiveKey) sampleMetadata pagedWorld atStart)
  = []
  /\ snd (iamCheckMetadata 149 (resolve sampleActiveKey) sampleMetadata pagedWorld atStart)
     = [Violation "access key must be rotated within 149 days (key is 150 days old)"].
Proof.
  split.
  - destruct (iamCheckMetadata_strictly_older 150 (resolve sampleActiveKey) sampleMetadata
                "AKIA2" (50 * msInDay) pagedWorld atStart eq_refl eq_refl eq_refl)
      as (_ & _ & Hequal & _ & _).
    apply Hequal. reflexivity.
  - destruct (iamCheckMetadata_strictly_older 149 (resolve sampleActiveKey) sampleMetadata
                "AKIA2" (50 * msInDay) pagedWorld atStart eq_refl eq_refl eq_refl)
      as (_ & _ & _ & Holder & _).
    apply Holder. reflexivity.
Defined.


(** ** Access keys: resources that are skipped *)

Lemma getProp_absent (k : string) (o : Props) :
  o !! k = None -> getProp k o = JUndefined.
Proof. unfold getProp. intros ->. reflexivity. Qed.

Lemma strictEqStr_true (v : JsValue) (s : string) :
  strictEqStr v s = true <-> v = JStr s.
Proof.
  destruct v; simpl; try (split; [discriminate | congruence]).
  rewrite String.eqb_eq. split; congruence.
Qed.

Lemma iamCheckAccessKey_skip pages maxKeyAge (instance : ResolvedResource) w c :
  truthy (getProp "id" instance) = false
  \/ getProp "status" instance ≠ JStr "Active" ->
  iamCheckAccessKey pages maxKeyAge instance w c = (Returned tt, c, []).
Proof.
  intros H. unfold iamCheckAccessKey.
  destruct H as [-> | Hs]; [reflexivity|].
  destruct (strictEqStr (getProp "status" instance) "Active") eqn:E.
  - apply strictEqStr_true in E. contradiction.
  - rewrite orb_true_r. reflexivity.
Qed.

Lemma filter_map_split {A B} (f : B -> bool) (g : A -> B) before x after :
  List.filter f (List.map g (before ++ x :: after)) =
  List.filter f (List.map g before) ++
  (if f (g x) then [g x] else []) ++ List.filter f (List.map g after).
Proof.
  rewrite List.map_app, List.filter_app. simpl.
  destruct (f (g x)); reflexivity.
Qed.

(** C6: an access key whose [id] is absent (or otherwise falsy) or whose
    [status] is not "Active" is skipped: its iteration makes no SDK request,
    reads no clock and reports no violation, whatever the provider would
    answer; the whole validation runs as if the resource were not in the
    stack. *)
Theorem iamAccessKeysRotated_skips_inactive pages maxKeyAge (r : PolicyResource) :
  props r !! "id" = None
  \/ truthy (getProp "id" (props r)) = false
  \/ getProp "status" (props r) ≠ JStr "Active" ->
  (forall w c,
      iamCheckAccessKey pages maxKeyAge (resolve r) w c = (Returned tt, c, []))
  /\ (forall level p,
        iamAccessKeysRotated pages level maxKeyAge = Ok p ->
        exists v,
          validation p = validateStack v
          /\ forall before after w c,
               v {| resources := before ++ r :: after |} w c =
               v {| resources := before ++ after |} w c).
Proof.
  intros H.
  assert (Hskip : forall w c,
    iamCheckAccessKey pages maxKeyAge (resolve r) w c = (Returned tt, c, [])).
  { intros w c. apply iamCheckAccessKey_skip.
    rewrite !getProp_resolve_other by discriminate.
    destruct H as [Habs | [Hf | Hs]].
    - left. rewrite (getProp_absent _ _ Habs). reflexivity.
    - left. exact Hf.
    - right. exact Hs. }
  split; [exact Hskip|].
  intros level p Hp. unfold iamAccessKeysRotated in Hp.
  destruct ((maxKeyAge <? 1) || (maxKeyAge >? 2 * 365)); [discriminate|].
  injection Hp as <-. eexists. split; [reflexivity|].
  intros before after w c. unfold validateTypedResources. simpl resources.
  f_equal.
  rewrite filter_map_split, List.map_app, List.filter_app.
  destruct (isInstance iam_AccessKey (resolve r)).
  - apply forOf_skip. exact Hskip.
  - reflexivity.
Qed.

Lemma iamAccessKeysRotated_skips_inactive_witness :
  iamCheckAccessKey 5 90 (resolve sampleInactiveKey) noExpiryWorld atStart
  = (Returned tt, atStart, [])
  /\ iamCheckAccessKey 5 90 (resolve sampleUnprovisionedKey) noExpiryWorld atStart
     = (Returned tt, atStart, [])
  /\ (exists p v,
        iamAccessKeysRotated 5 None 90 = Ok p
        /\ validation p = validateStack v
        /\ v {| resources := [sampleBucket; sampleInactiveKey] |} noExpiryWorld atStart
           = {| returned := Returned tt; floating := (Returned tt, atStart, []) |}).
Proof.
  split; [|split].
  - destruct (iamAccessKeysRotated_skips_inactive 5 90 sampleInactiveKey) as (Hskip & _).
    + right. right. discriminate.
    + apply Hskip.
  - destruct (iamAccessKeysRotated_skips_inactive 5 90 sampleUnprovisionedKey)
      as (Hskip & _).
    + left. reflexivity.
    + apply Hskip.
  - destruct (iamAccessKeysRotated_skips_inactive 5 90 sampleInactiveKey) as (_ & Hstack).
    + right. right. discriminate.
    + destruct (Hstack None _ eq_refl) as (v & Hv & Hsame).
      eexists _, v. split; [reflexivity|]. split; [exact Hv|].
      transitivity (v {| resources := [sampleBucket] ++ [] |} noExpiryWorld atStart).
      * apply (Hsame [sampleBucket] [] noExpiryWorld atStart).
      * injection Hv as <-. reflexivity.
Defined.


(** ** Access keys: the pagination loop *)

Lemma awaitSdk_run {A} (ev : Event) (answer : World -> nat -> SdkResult A) w c :
  awaitSdk ev answer w c =
  match answer w (calls c) with
  | Fulfilled a => (Returned a, called c, [ev])
  | Failed err => (Threw err, called c, [ev])
  end.
Proof. reflexivity. Qed.

(** One iteration of the loop whose request is fulfilled. *)
Lemma iamListPages_fulfilled pages maxKeyAge (instance : ResolvedResource) token w c r :
  listAccessKeys w (calls c) (getProp "user" instance) token = Fulfilled r ->
  exists c1 es1,
    calls c1 = S (calls c)
    /\ requestsOf es1 = []
    /\ iamListPages (S pages) maxKeyAge instance token w c =
       if default false (IsTruncated r)
       then let '(o, c2, es2) := iamListPages pages maxKeyAge instance (Marker r) w c1 in
            (o, c2, ListAccessKeys (getProp "user" instance) token :: es1 ++ es2)
       else (Returned tt, c1, ListAccessKeys (getProp "user" instance) token :: es1).
Proof.
  intros Hr.
  destruct (iamCheckPage_returns maxKeyAge instance (AccessKeyMetadataList r) w (called c))
    as (c1 & es1 & Hpage & Hc1 & Hq1).
  exists c1, es1. split; [exact Hc1|]. split; [exact Hq1|].
  simpl iamListPages. rewrite run_bind, awaitSdk_run, Hr.
  rewrite run_bind, Hpage.
  destruct (default false (IsTruncated r)).
  - destruct (iamListPages pages maxKeyAge instance (Marker r) w c1) as [[o c2] es2].
    reflexivity.
  - rewrite run_ret, app_nil_r. reflexivity.
Qed.

(** One iteration of the loop whose request is rejected. *)
Lemma iamListPages_failed pages maxKeyAge (instance : ResolvedResource) token w c err :
  listAccessKeys w (calls c) (getProp "user" instance) token = Failed err ->
  iamListPages (S pages) maxKeyAge instance token w c =
  (Threw err, called c, [ListAccessKeys (getProp "user" instance) token]).
Proof.
  intros Hr. simpl iamListPages. rewrite run_bind, awaitSdk_run, Hr. reflexivity.
Qed.

(** The loop ends after the first page that is not truncated. *)
Lemma iamListPages_finite maxKeyAge (instance : ResolvedResource) w (n : nat) :
  forall pages token c last,
    (forall i, (i < n)%nat -> exists r,
        pageSeen w (getProp "user" instance) (calls c) token i = Fulfilled r
        /\ IsTruncated r = Some true) ->
    pageSeen w (getProp "user" instance) (calls c) token n = Fulfilled last ->
    default false (IsTruncated last) = false ->
    (n < pages)%nat ->
    exists c' es,
      iamListPages pages maxKeyAge instance token w c = (Returned tt, c', es)
      /\ calls c' = (calls c + S n)%nat
      /\ length (requestsOf es) = S n.
Proof.
  induction n as [|n IH]; intros pages token c last Hmore Hlast Hstop Hpages.
  - destruct pages as [|pages]; [lia|]. simpl in Hlast.
    destruct (iamListPages_fulfilled pages maxKeyAge instance token w c last Hlast)
      as (c1 & es1 & Hc1 & Hq1 & ->).
    rewrite Hstop. exists c1, (ListAccessKeys (getProp "user" instance) token :: es1).
    split; [reflexivity|]. split; [lia|]. simpl. rewrite Hq1. reflexivity.
  - destruct pages as [|pages]; [lia|].
    destruct (Hmore 0%nat ltac:(lia)) as (r & Hr & Htr). simpl in Hr.
    destruct (iamListPages_fulfilled pages maxKeyAge instance token w c r Hr)
      as (c1 & es1 & Hc1 & Hq1 & ->).
    rewrite Htr. simpl default.
    destruct (IH pages (Marker r) c1 last) as (c2 & es2 & -> & Hc2 & Hq2).
    + intros i Hi. destruct (Hmore (S i) ltac:(lia)) as (r' & Hr' & Htr').
      simpl in Hr'. rewrite Hr in Hr'. rewrite Hc1. eauto.
    + simpl in Hlast. rewrite Hr in Hlast. rewrite Hc1. exact Hlast.
    + exact Hstop.
    + lia.
    + eexists _, _. split; [reflexivity|]. split; [lia|].
      simpl. rewrite requestsOf_app, Hq1. simpl. rewrite Hq2. reflexivity.
Qed.

(** While every page is truncated the loop goes on: any number of iterations
    is used up, with one request each, and the loop neither returns nor
    throws. *)
Lemma iamListPages_endless maxKeyAge (instance : ResolvedResource) w (pages : nat) :
  forall token c,
    (forall i, exists r,
        pageSeen w (getProp "user" instance) (calls c) token i = Fulfilled r
        /\ IsTruncated r = Some true) ->
    exists c' es,
      iamListPages pages maxKeyAge instance token w c = (OutOfFuel, c', es)
      /\ calls c' = (calls c + pages)%nat
      /\ length (requestsOf es) = pages.
Proof.
  induction pages as [|pages IH]; intros token c Hmore.
  - exists c, []. split; [reflexivity|]. split; [lia | reflexivity].
  - destruct (Hmore 0%nat) as (r & Hr & Htr). simpl in Hr.
    destruct (iamListPages_fulfilled pages maxKeyAge instance token w c r Hr)
      as (c1 & es1 & Hc1 & Hq1 & ->).
    rewrite Htr. simpl default.
    destruct (IH (Marker r) c1) as (c2 & es2 & -> & Hc2 & Hq2).
    + intros i. destruct (Hmore (S i)) as (r' & Hr' & Htr').
      simpl in Hr'. rewrite Hr in Hr'. rewrite Hc1. eauto.
    + eexists _, _. split; [reflexivity|]. split; [lia|].
      simpl. rewrite requestsOf_app, Hq1. simpl. rewrite Hq2. reflexivity.
Qed.

(** A rejected request ends the loop with the provider's own error. *)
Lemma iamListPages_rejected maxKeyAge (instance : ResolvedResource) w (n : nat) :
  forall pages token c err,
    (forall i, (i < n)%nat -> exists r,
        pageSeen w (getProp "user" instance) (calls c) token i = Fulfilled r
        /\ IsTruncated r = Some true) ->
    pageSeen w (getProp "user" instance) (calls c) token n = Failed err ->
    (n < pages)%nat ->
    exists c' es,
      iamListPages pages maxKeyAge instance token w c = (Threw err, c', es)
      /\ calls c' = (calls c + S n)%nat.
Proof.
  induction n as [|n IH]; intros pages token c err Hmore Hfail Hpages.
  - destruct pages as [|pages]; [lia|]. simpl in Hfail.
    rewrite (iamListPages_failed _ _ _ _ _ _ _ Hfail).
    eexists _, _. split; [reflexivity|]. simpl. lia.
  - destruct pages as [|pages]; [lia|].
    destruct (Hmore 0%nat ltac:(lia)) as (r & Hr & Htr). simpl in Hr.
    destruct (iamListPages_fulfilled pages maxKeyAge instance token w c r Hr)
      as (c1 & es1 & Hc1 & Hq1 & ->).
    rewrite Htr. simpl default.
    destruct (IH pages (Marker r) c1 err) as (c2 & es2 & -> & Hc2).
    + intros i Hi. destruct (Hmore (S i) ltac:(lia)) as (r' & Hr' & Htr').
      simpl in Hr'. rewrite Hr in Hr'. rewrite Hc1. eauto.
    + simpl in Hfail. rewrite Hr in Hfail. rewrite Hc1. exact Hfail.
    + lia.
    + eexists _, _. split; [reflexivity|]. lia.
Qed.

Lemma endlessWorld_pages (UserName : JsValue) (i : nat) :
  forall k token, exists r,
    pageSeen endlessWorld UserName k token i = Fulfilled r
    /\ IsTruncated r = Some true.
Proof.
  induction i as [|i IH]; intros k token.
  - eexists. split; reflexivity.
  - simpl. apply IH.
Qed.

(** C1, as the code has it: the pagination loop has no page bound and no
    error of its own.  It makes one request per page, each with the marker
    of the page before, and returns right after the first page whose
    [IsTruncated] is not set; a rejected request ends it with the provider's
    error; and while the provider signals more pages on every page, the loop
    uses up any number of iterations without returning or throwing, so that
    no bound on its requests exists. *)
Theorem iamListPages_follows_provider maxKeyAge (instance : ResolvedResource) w c :
  let page := pageSeen w (getProp "user" instance) (calls c) None in
  let truncated (i : nat) :=
    exists r, page i = Fulfilled r /\ IsTruncated r = Some true in
  let loop (pages : nat) := iamListPages pages maxKeyAge instance None in
  (forall n last,
      (forall i, (i < n)%nat -> truncated i) ->
      page n = Fulfilled last ->
      default false (IsTruncated last) = false ->
      forall pages, (n < pages)%nat ->
      exists c' es,
        loop pages w c = (Returned tt, c', es)
        /\ calls c' = (calls c + S n)%nat
        /\ length (requestsOf es) = S n)
  /\ (forall n err,
      (forall i, (i < n)%nat -> truncated i) ->
      page n = Failed err ->
      forall pages, (n < pages)%nat ->
      exists c' es,
        loop pages w c = (Threw err, c', es)
        /\ calls c' = (calls c + S n)%nat)
  /\ ((forall i, truncated i) ->
      (forall pages, exists c' es,
          loop pages w c = (OutOfFuel, c', es)
          /\ calls c' = (calls c + pages)%nat
          /\ length (requestsOf es) = pages)
      /\ forall bound, ~ endsWithin bound loop w c).
Proof.
  intros page truncated loop. split; [|split].
  - intros n last Hmore Hlast Hstop pages Hpages.
    apply (iamListPages_finite maxKeyAge instance w n pages None c last); assumption.
  - intros n err Hmore Hfail pages Hpages.
    apply (iamListPages_rejected maxKeyAge instance w n pages None c err); assumption.
  - intros Hmore. split.
    + intros pages. apply iamListPages_endless. exact Hmore.
    + intros bound (pages & o & c' & es & Hrun & Ho & _).
      destruct (iamListPages_endless maxKeyAge instance w pages None c Hmore)
        as (c2 & es2 & Hrun2 & _).
      unfold loop in Hrun. rewrite Hrun2 in Hrun. apply Ho. congruence.
Qed.

Lemma iamListPages_follows_provider_witness :
  (exists c' es,
      iamListPages 7 90 (resolve sampleActiveKey) None pagedWorld atStart
      = (Returned tt, c', es)
      /\ calls c' = 3%nat /\ length (requestsOf es) = 3%nat)
  /\ (exists c' es,
      iamListPages 7 90 (resolve sampleActiveKey) None noExpiryWorld atStart
      = (Threw "ServiceUnavailable", c', es) /\ calls c' = 1%nat)
  /\ ~ endsWithin 1000 (fun pages => iamListPages pages 90 (resolve sampleActiveKey) None)
         endlessWorld atStart.
Proof.
  split; [|split].
  - destruct (iamListPages_follows_provider 90 (resolve sampleActiveKey) pagedWorld atStart)
      as (Hfinite & _ & _).
    apply (Hfinite 2%nat
             {| AccessKeyMetadataList := []; IsTruncated := Some false; Marker := None |}).
    + intros [|[|i]] Hi; [eexists; split; reflexivity..|lia].
    + reflexivity.
    + reflexivity.
    + lia.
  - destruct (iamListPages_follows_provider 90 (resolve sampleActiveKey) noExpiryWorld atStart)
      as (_ & Hrejected & _).
    apply (Hrejected 0%nat "ServiceUnavailable").
    + intros i Hi. lia.
    + reflexivity.
    + lia.
  - destruct (iamListPages_follows_provider 90 (resolve sampleActiveKey) endlessWorld atStart)
      as (_ & _ & Hendless).
    apply Hendless. intros i. apply endlessWorld_pages.
Defined.

(** C1 as stated does not hold: with a provider that always signals one more
    page, no page count bounds the loop of [iamAccessKeysRotated], which
    neither returns nor throws however many iterations it is given. *)
Lemma iamListPages_unbounded_counterexample :
  ~ exists maxPages,
      endsWithin maxPages
        (fun pages => iamCheckAccessKey pages 90 (resolve sampleActiveKey))
        endlessWorld atStart.
Proof.
  intros (maxPages & pages & o & c' & es & Hrun & Ho & _).
  change (iamCheckAccessKey pages 90 (resolve sampleActiveKey))
    with (iamListPages pages 90 (resolve sampleActiveKey) None) in Hrun.
  destruct (iamListPages_endless 90 (resolve sampleActiveKey) endlessWorld pages None atStart)
    as (c2 & es2 & Hrun2 & _).
  - intros i. apply endlessWorld_pages.
  - rewrite Hrun2 in Hrun. apply Ho. congruence.
Qed.

(** ** Resource policies *)

Lemma validateTypedResource_match pulumiType validate (instance : ResolvedResource) :
  validateTypedResource pulumiType validate
    {| rv_type := pulumiType; rv_props := instance |}
  = validate instance {| rv_type := pulumiType; rv_props := instance |}.
Proof.
  unfold validateTypedResource. simpl. rewrite String.eqb_refl. reflexivity.
Qed.

Lemma validateTypedResource_other pulumiType validate (args : ResourceValidationArgs) w c :
  rv_type args ≠ pulumiType ->
  validateTypedResource pulumiType validate args w c = (Returned tt, c, []).
Proof.
  intros H. unfold validateTypedResource.
  destruct (String.eqb_spec (rv_type args) pulumiType); [contradiction|reflexivity].
Qed.

Lemma mfaCheckLoginProfile_run (instance : ResolvedResource) w c resp :
  listMFADevices w (calls c) (getProp "user" instance) = Fulfilled resp ->
  mfaCheckLoginProfile instance w c =
  (Returned tt, called c,
   ListMFADevices (getProp "user" instance) ::
   match MFADevices resp with
   | [] => [Violation (mfaViolationMessage (getProp "user" instance))]
   | _ :: _ => []
   end).
Proof.
  intros Hresp. unfold mfaCheckLoginProfile.
  rewrite run_bind, awaitSdk_run, Hresp.
  destruct (MFADevices resp); reflexivity.
Qed.

(** C7: for a console-login resource, when the provider reports no MFA
    device the policy reports exactly one violation, whose message names the
    user of the resource; when it reports one or more devices the policy
    reports none.  Either way one request is made, for that user. *)
Theorem iamMfaEnabledForConsoleAccess_reports level (instance : ResolvedResource)
    w c resp :
  listMFADevices w (calls c) (getProp "user" instance) = Fulfilled resp ->
  exists v,
    validation (iamMfaEnabledForConsoleAccess level) = validateResource v
    /\ let args := {| rv_type := iam_UserLoginProfile; rv_props := instance |} in
       let user := getProp "user" instance in
       (length (MFADevices resp) = 0%nat ->
          v args w c = (Returned tt, called c,
                        [ListMFADevices user; Violation (mfaViolationMessage user)]))
       /\ ((1 <= length (MFADevices resp))%nat ->
          v args w c = (Returned tt, called c, [ListMFADevices user]))
       /\ length (violationsOf (snd (v args w c))) =
          (if Nat.eqb (length (MFADevices resp)) 0 then 1 else 0)%nat
       /\ (forall name, user = JStr name ->
             mfaViolationMessage user =
             "no MFA device enabled for IAM User '" +:+ name +:+ "'").
Proof.
  intros Hresp. eexists. split; [reflexivity|].
  intros args user. subst args.
  rewrite validateTypedResource_match, (mfaCheckLoginProfile_run _ _ _ _ Hresp).
  fold user. split; [|split; [|split]].
  - intros H. destruct (MFADevices resp); [reflexivity|discriminate].
  - intros H. destruct (MFADevices resp); [simpl in H; lia|reflexivity].
  - destruct (MFADevices resp); reflexivity.
  - intros name ->. reflexivity.
Qed.

Lemma iamMfaEnabledForConsoleAccess_reports_witness :
  exists v,
    validation (iamMfaEnabledForConsoleAccess (Some mandatory)) = validateResource v
    /\ v {| rv_type := iam_UserLoginProfile; rv_props := props sampleLoginProfile |}
         quietWorld atStart
       = (Returned tt, called atStart,
          [ListMFADevices (JStr "carol");
           Violation "no MFA device enabled for IAM User 'carol'"])
    /\ v {| rv_type := iam_UserLoginProfile; rv_props := props sampleLoginProfile |}
         pagedWorld atStart
       = (Returned tt, called atStart, [ListMFADevices (JStr "carol")]).
Proof.
  destruct (iamMfaEnabledForConsoleAccess_reports (Some mandatory)
              (props sampleLoginProfile) quietWorld atStart
              {| MFADevices := [] |} eq_refl)
    as (v & Hv & Hnone & _ & _ & _).
  destruct (iamMfaEnabledForConsoleAccess_reports (Some mandatory)
              (props sampleLoginProfile) pagedWorld atStart
              {| MFADevices := [ {| SerialNumber := "arn:aws:iam::mfa/carol" |} ] |} eq_refl)
    as (v' & Hv' & _ & Hsome & _ & _).
  rewrite Hv in Hv'. injection Hv' as <-.
  exists v. split; [exact Hv|]. split.
  - apply Hnone. reflexivity.
  - apply Hsome. simpl. lia.
Defined.

Lemma cmkCheckKey_run (instance : ResolvedResource) w c :
  cmkCheckKey instance w c =
  (Returned tt, c,
   if truthy (getProp "enableKeyRotation" instance) then []
   else [Violation cmkViolationMessage]).
Proof.
  unfold cmkCheckKey. destruct (truthy _); reflexivity.
Qed.

(** C10: for a KMS key the policy reports its violation whenever
    [enableKeyRotation] is falsy, in particular when the property is absent
    from the snapshot, which is treated as rotation disabled; with the
    property at its declared type (a boolean, or absent) no violation is
    reported exactly when it is [true]. *)
Theorem cmkBackingKeyRotationEnabled_reports level (instance : ResolvedResource) w c :
  exists v,
    validation (cmkBackingKeyRotationEnabled level) = validateResource v
    /\ let args := {| rv_type := kms_Key; rv_props := instance |} in
       let reported := (Returned tt, c, [Violation cmkViolationMessage]) in
       (truthy (getProp "enableKeyRotation" instance) = false <->
          v args w c = reported)
       /\ (instance !! "enableKeyRotation" = None -> v args w c = reported)
       /\ (instance !! "enableKeyRotation" = Some (JBool false) -> v args w c = reported)
       /\ (forall declared : option bool,
             instance !! "enableKeyRotation" = JBool <$> declared ->
             (v args w c = (Returned tt, c, []) <-> declared = Some true)).
Proof.
  eexists. split; [reflexivity|].
  intros args reported. subst args reported.
  rewrite validateTypedResource_match, cmkCheckKey_run.
  unfold getProp. split; [|split; [|split]].
  - destruct (truthy _); split; congruence.
  - intros ->. reflexivity.
  - intros ->. reflexivity.
  - intros [[|]|] ->; simpl; split; congruence.
Qed.

Lemma cmkBackingKeyRotationEnabled_reports_witness :
  exists v,
    validation (cmkBackingKeyRotationEnabled None) = validateResource v
    /\ v {| rv_type := kms_Key; rv_props := props sampleKmsKey |} quietWorld atStart
       = (Returned tt, atStart, [Violation "CMK does not have the key rotation setting enabled"])
    /\ v {| rv_type := kms_Key;
            rv_props := <["enableKeyRotation" := JBool true]> (props sampleKmsKey) |}
         quietWorld atStart
       = (Returned tt, atStart, []).
Proof.
  destruct (cmkBackingKeyRotationEnabled_reports None (props sampleKmsKey)
              quietWorld atStart) as (v & Hv & _ & Habsent & _ & _).
  destruct (cmkBackingKeyRotationEnabled_reports None
              (<["enableKeyRotation" := JBool true]> (props sampleKmsKey))
              quietWorld atStart) as (v' & Hv' & _ & _ & _ & Hbool).
  rewrite Hv in Hv'. injection Hv' as <-.
  exists v. split; [exact Hv|]. split.
  - apply Habsent. reflexivity.
  - apply (Hbool (Some true)); reflexivity.
Defined.

(** ** Certificates *)

Lemma acmCheckCertificate_run maxDaysUntilExpiration (certInStack : ResolvedResource) w c :
  acmCheckCertificate maxDaysUntilExpiration certInStack w c =
  let request := DescribeCertificate (getProp "id" certInStack) in
  match describeCertificate w (calls c) (getProp "id" certInStack) with
  | Failed err => (Threw err, called c, [request])
  | Fulfilled resp =>
      match Certificate resp ≫= NotAfter with
      | Some notAfter =>
          let daysUntilExpiry := (notAfter - Date_now w (reads c)) / msInDay in
          (Returned tt, tick (called c),
           request ::
           if daysUntilExpiry <? maxDaysUntilExpiration
           then [Violation (acmViolationMessage daysUntilExpiry maxDaysUntilExpiration)]
           else [])
      | None => (Returned tt, called c, [request])
      end
  end.
Proof.
  unfold acmCheckCertificate. cbv zeta.
  rewrite run_bind, awaitSdk_run.
  destruct (describeCertificate w (calls c) (getProp "id" certInStack)) as [resp|err];
    [|reflexivity].
  destruct (Certificate resp) as [detail|]; [|reflexivity]. simpl.
  destruct (NotAfter detail) as [notAfter|]; [|reflexivity].
  rewrite run_bind. cbn -[Z.div Z.ltb msInDay acmViolationMessage].
  destruct (_ <? _); reflexivity.
Qed.

(** The certificates of a stack that holds exactly one. *)
Lemma only_certificate (before after : list PolicyResource) (cert : PolicyResource) :
  type cert = acm_Certificate ->
  (forall r, In r (before ++ after) -> type r ≠ acm_Certificate) ->
  List.filter (isInstance acm_Certificate) (List.map resolve (before ++ cert :: after))
  = [resolve cert].
Proof.
  intros Hcert Hothers. rewrite filter_map_split.
  rewrite !no_instance_filter
    by (intros r Hr; apply Hothers, in_or_app; auto).
  apply isInstance_resolve in Hcert. rewrite Hcert. reflexivity.
Qed.

Lemma forOf_single {A} (x : A) (body : A -> Task unit) w c :
  forOf [x] body w c = body x w c.
Proof.
  rewrite forOf_cons, run_bind.
  destruct (body x w c) as [[[[]| |] c1] es1]; [|reflexivity..].
  rewrite forOf_nil, app_nil_r. reflexivity.
Qed.

(** C3, as the code has it: for a stack whose only certificate is [cert],
    the body of the acm-certificate-expiration policy, built at mandatory
    enforcement with [maxDaysUntilExpiration = 14], asks the provider for
    the certificate and reports exactly one violation, whose message states
    the floored days until expiry and the threshold 14, exactly when the
    provider's description carries a [NotAfter] fewer than 14 whole days
    away.  When the description carries no [NotAfter], or one that is 14
    days or more away, the body reports nothing.  A violation is a message;
    it carries no reference to the resource.  (The body is the promise that
    the validation starts; what the engine makes of a report is not part of
    the statement.) *)
Theorem acmCheckCertificateExpiration_reports
    (before after : list PolicyResource) (cert : PolicyResource) w c resp :
  type cert = acm_Certificate ->
  (forall r, In r (before ++ after) -> type r ≠ acm_Certificate) ->
  describeCertificate w (calls c) (getProp "id" (props cert)) = Fulfilled resp ->
  let stack := before ++ cert :: after in
  let policy := acmCheckCertificateExpiration (Some mandatory) 14 in
  let request := DescribeCertificate (getProp "id" (props cert)) in
  exists v,
    validation policy = validateStack v
    /\ enforcementLevel policy = mandatory
    /\ match Certificate resp ≫= NotAfter with
       | Some notAfter =>
           let daysUntilExpiry := (notAfter - Date_now w (reads c)) / msInDay in
           if daysUntilExpiry <? 14 then
             floating (v {| resources := stack |} w c) =
               (Returned tt, tick (called c),
                [request; Violation (acmViolationMessage daysUntilExpiry 14)])
             /\ acmViolationMessage daysUntilExpiry 14 =
                "certificate expires in " +:+ pretty daysUntilExpiry +:+
                " (max allowed 14 days)"
           else
             floating (v {| resources := stack |} w c) =
               (Returned tt, tick (called c), [request])
       | None =>
           floating (v {| resources := stack |} w c) =
             (Returned tt, called c, [request])
       end.
Proof.
  intros Hcert Hothers Hresp stack policy request.
  eexists. split; [reflexivity|]. split; [reflexivity|].
  assert (Hrun : floating (validateTypedResources (isInstance acm_Certificate)
            (fun acmCertificates _ => forOf acmCertificates (acmCheckCertificate 14))
            {| resources := stack |} w c)
          = acmCheckCertificate 14 (resolve cert) w c).
  { unfold validateTypedResources, stack. simpl resources. simpl floating.
    rewrite (only_certificate _ _ _ Hcert Hothers). apply forOf_single. }
  rewrite Hrun. clear Hrun.
  rewrite acmCheckCertificate_run.
  rewrite getProp_resolve_other by discriminate. rewrite Hresp. fold request.
  destruct (Certificate resp ≫= NotAfter) as [notAfter|]; [|reflexivity].
  cbv zeta. destruct (_ <? 14); [split|]; reflexivity.
Qed.

Lemma acmCheckCertificateExpiration_reports_witness :
  exists v,
    validation (acmCheckCertificateExpiration (Some mandatory) 14) = validateStack v
    /\ floating (v {| resources := [sampleBucket; sampleCertificate; sampleActiveKey] |}
                   pagedWorld atStart)
       = (Returned tt, tick (called atStart),
          [DescribeCertificate (JStr "arn:aws:acm:cert/1");
           Violation "certificate expires in 4 (max allowed 14 days)"]).
Proof.
  destruct (acmCheckCertificateExpiration_reports
              [sampleBucket] [sampleActiveKey] sampleCertificate pagedWorld atStart
              {| Certificate := Some {| NotAfter := Some (205 * msInDay) |} |})
    as (v & Hv & _ & H).
  - reflexivity.
  - intros r [<-|[<-|[]]]; discriminate.
  - reflexivity.
  - destruct H as (Hrun & _). exists v. split; [exact Hv | exact Hrun].
Defined.

(** C3 as stated does not hold: a stack with one certificate that has no
    expiry set, where the provider's description has no [NotAfter] either,
    gets no violation at all from the policy at mandatory enforcement with
    [maxDaysUntilExpiration = 14]: the body asks for the certificate, reports
    nothing and ends. *)
Lemma acmCheckCertificateExpiration_no_expiry_counterexample :
  exists v,
    validation (acmCheckCertificateExpiration (Some mandatory) 14) = validateStack v
    /\ props sampleCertificate !! "notAfter" = None
    /\ v {| resources := [sampleCertificate] |} noExpiryWorld atStart
       = {| returned := Returned tt;
            floating := (Returned tt, called atStart,
                         [DescribeCertificate (JStr "arn:aws:acm:cert/1")]) |}
    /\ violationsOf (snd (floating (v {| resources := [sampleCertificate] |}
                                      noExpiryWorld atStart))) = [].
Proof.
  eexists. split; [reflexivity|]. split; [reflexivity|]. split; reflexivity.
Qed.

(** ** Construction of the policies *)

Lemma iamAccessKeysRotated_range pages level maxKeyAge :
  iamAccessKeysRotated pages level maxKeyAge =
  if decide (1 <= maxKeyAge <= 730) then
    Ok {| name := "access-keys-rotated";
          description := "Checks whether an access key have been rotated within maxKeyAge days.";
          enforcementLevel := default advisory level;
          validation := validateStack (validateTypedResources (isInstance iam_AccessKey)
            (fun accessKeys _ => forOf accessKeys (iamCheckAccessKey pages maxKeyAge))) |}
  else Throws "Invalid maxKeyAge.".
Proof.
  unfold iamAccessKeysRotated.
  destruct (Z.ltb_spec maxKeyAge 1), (Z.gtb_spec maxKeyAge (2 * 365));
    simpl; case_decide; try reflexivity; lia.
Qed.

(** C4: constructing the access-keys-rotated policy with [maxKeyAge] below 1
    or above 730, for instance 0, throws before any policy object exists, so
    that there is no validation body to run; with [maxKeyAge] in [1, 730]
    the construction returns the policy definition. *)
Theorem iamAccessKeysRotated_validates_maxKeyAge pages level maxKeyAge :
  (maxKeyAge < 1 \/ maxKeyAge > 730 ->
     iamAccessKeysRotated pages level maxKeyAge = Throws "Invalid maxKeyAge.")
  /\ (1 <= maxKeyAge <= 730 ->
     exists p v,
       iamAccessKeysRotated pages level maxKeyAge = Ok p
       /\ name p = "access-keys-rotated"
       /\ enforcementLevel p = default advisory level
       /\ validation p = validateStack v)
  /\ (forall p, iamAccessKeysRotated pages level maxKeyAge = Ok p ->
        1 <= maxKeyAge <= 730)
  /\ iamAccessKeysRotated pages level 0 = Throws "Invalid maxKeyAge.".
Proof.
  rewrite iamAccessKeysRotated_range. split; [|split; [|split]].
  - intros H. case_decide; [lia|reflexivity].
  - intros H. case_decide; [|lia]. eexists _, _.
    split; [reflexivity|]. split; [reflexivity|]. split; reflexivity.
  - intros p H. case_decide; [assumption|discriminate].
  - reflexivity.
Qed.

Lemma iamAccessKeysRotated_validates_maxKeyAge_witness :
  iamAccessKeysRotated 5 (Some mandatory) 731 = Throws "Invalid maxKeyAge."
  /\ iamAccessKeysRotated 5 (Some mandatory) (-1) = Throws "Invalid maxKeyAge."
  /\ (exists p, iamAccessKeysRotated 5 (Some mandatory) 730 = Ok p
                /\ name p = "access-keys-rotated")
  /\ (exists p, iamAccessKeysRotated 5 None 1 = Ok p
                /\ enforcementLevel p = advisory).
Proof.
  split; [|split; [|split]].
  - destruct (iamAccessKeysRotated_validates_maxKeyAge 5 (Some mandatory) 731)
      as (Hthrows & _).
    apply Hthrows. lia.
  - destruct (iamAccessKeysRotated_validates_maxKeyAge 5 (Some mandatory) (-1))
      as (Hthrows & _).
    apply Hthrows. lia.
  - destruct (iamAccessKeysRotated_validates_maxKeyAge 5 (Some mandatory) 730)
      as (_ & Hok & _).
    destruct (Hok ltac:(lia)) as (p & v & Hp & Hname & _).
    exists p. split; assumption.
  - destruct (iamAccessKeysRotated_validates_maxKeyAge 5 None 1) as (_ & Hok & _).
    destruct (Hok ltac:(lia)) as (p & v & Hp & _ & Hlevel & _).
    exists p. split; assumption.
Defined.

(** C2, as the code has it: of the two numeric thresholds only the IAM
    [maxKeyAge] is checked when the policies are constructed.  When
    [maxKeyAge] (90 when not set) is below 1 or above 730,
    [iamAccessKeysRotated] throws, and with it [getPolicies], which then
    returns no policy list, so that none of the validation bodies can be
    run; when it is within [1, 730] the four policies are returned.  The ACM
    [maxDaysUntilExpiration] (14 when not set) is not checked: any value is
    accepted and becomes the threshold of the policy. *)
Theorem getPolicies_validates_maxKeyAge_only pages enforcement settings :
  let maxDaysUntilExpiration :=
    getValueOrDefault (acmCheckCertificateExpirationMaxDays settings) 14 in
  let maxKeyAge := getValueOrDefault (iamAccessKeysRotatedMaxDays settings) 90 in
  (maxKeyAge < 1 \/ maxKeyAge > 730 ->
     iamAccessKeysRotated pages (Some enforcement) maxKeyAge
     = Throws "Invalid maxKeyAge."
     /\ getPolicies pages enforcement settings = Throws "Invalid maxKeyAge.")
  /\ (1 <= maxKeyAge <= 730 ->
      exists iam,
        iamAccessKeysRotated pages (Some enforcement) maxKeyAge = Ok iam
        /\ getPolicies pages enforcement settings =
           Ok [acmCheckCertificateExpiration (Some enforcement) maxDaysUntilExpiration;
               cmkBackingKeyRotationEnabled (Some enforcement);
               iam;
               iamMfaEnabledForConsoleAccess (Some enforcement)])
  /\ (iamAccessKeysRotatedMaxDays settings = None ->
      exists policies, getPolicies pages enforcement settings = Ok policies).
Proof.
  intros maxDaysUntilExpiration maxKeyAge.
  unfold getPolicies. fold maxDaysUntilExpiration maxKeyAge.
  rewrite iamAccessKeysRotated_range.
  split; [|split].
  - intros Hout. case_decide; [lia|]. split; reflexivity.
  - intros Hin. case_decide; [|lia]. eexists. split; reflexivity.
  - intros Hnone. unfold maxKeyAge. rewrite Hnone. simpl.
    eexists. reflexivity.
Qed.

Lemma getPolicies_validates_maxKeyAge_only_witness :
  getPolicies 5 advisory
    {| acmCheckCertificateExpirationMaxDays := Some 30;
       iamAccessKeysRotatedMaxDays := Some 0 |}
  = Throws "Invalid maxKeyAge."
  /\ (exists iam,
        getPolicies 5 advisory
          {| acmCheckCertificateExpirationMaxDays := Some (-3);
             iamAccessKeysRotatedMaxDays := Some 730 |}
        = Ok [acmCheckCertificateExpiration (Some advisory) (-3);
              cmkBackingKeyRotationEnabled (Some advisory);
              iam;
              iamMfaEnabledForConsoleAccess (Some advisory)])
  /\ (exists policies,
        getPolicies 5 advisory
          {| acmCheckCertificateExpirationMaxDays := Some 100000;
             iamAccessKeysRotatedMaxDays := None |}
        = Ok policies).
Proof.
  split; [|split].
  - destruct (getPolicies_validates_maxKeyAge_only 5 advisory
                {| acmCheckCertificateExpirationMaxDays := Some 30;
                   iamAccessKeysRotatedMaxDays := Some 0 |}) as (Hthrows & _).
    apply Hthrows. simpl. lia.
  - destruct (getPolicies_validates_maxKeyAge_only 5 advisory
                {| acmCheckCertificateExpirationMaxDays := Some (-3);
                   iamAccessKeysRotatedMaxDays := Some 730 |}) as (_ & Hbuilt & _).
    destruct Hbuilt as (iam & _ & Hlist); [simpl; lia|].
    exists iam. exact Hlist.
  - destruct (getPolicies_validates_maxKeyAge_only 5 advisory
                {| acmCheckCertificateExpirationMaxDays := Some 100000;
                   iamAccessKeysRotatedMaxDays := None |}) as (_ & _ & Hdefault).
    apply Hdefault. reflexivity.
Defined.

(** C2 as stated does not hold: with an ACM threshold of 0 days, or of
    100000 days, both outside the day-count domain [1, 730], the policies
    are constructed without any error and the ACM policy carries that
    threshold. *)
Lemma getPolicies_accepts_any_acm_threshold_counterexample :
  ~ (1 <= 0 <= 730)
  /\ (exists iam,
        getPolicies 5 mandatory
          {| acmCheckCertificateExpirationMaxDays := Some 0;
             iamAccessKeysRotatedMaxDays := None |}
        = Ok [acmCheckCertificateExpiration (Some mandatory) 0;
              cmkBackingKeyRotationEnabled (Some mandatory);
              iam;
              iamMfaEnabledForConsoleAccess (Some mandatory)])
  /\ (exists iam,
        getPolicies 5 mandatory
          {| acmCheckCertificateExpirationMaxDays := Some 100000;
             iamAccessKeysRotatedMaxDays := Some 730 |}
        = Ok [acmCheckCertificateExpiration (Some mandatory) 100000;
              cmkBackingKeyRotationEnabled (Some mandatory);
              iam;
              iamMfaEnabledForConsoleAccess (Some mandatory)]).
Proof.
  split; [lia|]. split; eexists; reflexivity.
Qed.

(** ** The loop within the policy, and two runs *)

(** For a provisioned, active key the outer loop body is the pagination
    loop, started without a marker. *)
Lemma iamCheckAccessKey_active pages maxKeyAge (instance : ResolvedResource) :
  truthy (getProp "id" instance) = true ->
  getProp "status" instance = JStr "Active" ->
  iamCheckAccessKey pages maxKeyAge instance
  = iamListPages pages maxKeyAge instance None.
Proof.
  intros Hid Hstatus. unfold iamCheckAccessKey. rewrite Hid, Hstatus. reflexivity.
Qed.

Example iamAccessKeysRotated_pagedWorld :
  exists p v,
    iamAccessKeysRotated 7 None 90 = Ok p
    /\ validation p = validateStack v
    /\ floating (v {| resources := [sampleBucket; sampleActiveKey; sampleInactiveKey] |}
                   pagedWorld atStart)
       = (Returned tt, {| calls := 3; reads := 1 |},
          [ListAccessKeys (JStr "bob") None;
           ListAccessKeys (JStr "bob") (Some "page2");
           Violation "access key must be rotated within 90 days (key is 150 days old)";
           ListAccessKeys (JStr "bob") (Some "page3")]).
Proof. eexists _, _. split; [reflexivity|]. split; reflexivity. Qed.

Example toString_array :
  toString (JArr [JNum (-3); JNull; JStr "a"; JArr [JBool true; JUndefined]])
  = "-3,,a,true,".
Proof. reflexivity. Qed.

(** * Further properties of [security.ts] *)

(** ** The type token of a resolved resource *)

Lemma typed_filter_resolve (pulumiType : string) (rs : list PolicyResource) :
  List.filter (isInstance pulumiType) (List.map resolve rs)
  = List.map resolve (List.filter (hasType pulumiType) rs).
Proof.
  induction rs as [|r rs IH]; simpl; [reflexivity|].
  unfold isInstance at 1. rewrite getProp_resolve_type. simpl strictEqStr.
  unfold hasType at 1. destruct (String.eqb (type r) pulumiType); simpl; congruence.
Qed.

(** X1: in the object handed to a stack validation the type token of the
    resource sits under [__pulumiType], replacing any property of that name
    the resource may have; every other property is passed unchanged.  The
    type test therefore depends on the type of the resource alone: a
    property named [__pulumiType] cannot make a resource pass for another
    class. *)
Theorem resolve_type_token (r : PolicyResource) :
  resolve r !! "__pulumiType" = Some (JStr (type r))
  /\ (forall k : string, k ≠ "__pulumiType" -> resolve r !! k = props r !! k)
  /\ (forall pulumiType,
        isInstance pulumiType (resolve r) = hasType pulumiType r)
  /\ (forall spoof : JsValue,
        resolve {| type := type r; props := <["__pulumiType" := spoof]> (props r) |}
        = resolve r).
Proof.
  unfold resolve. split; [|split; [|split]].
  - apply lookup_insert_eq.
  - intros k Hk. apply lookup_insert_ne. congruence.
  - intros pulumiType. unfold isInstance, getProp, hasType.
    rewrite lookup_insert_eq. reflexivity.
  - intros spoof. simpl. apply insert_insert_eq.
Qed.

Lemma resolve_type_token_witness :
  resolve sampleActiveKey !! "status" = Some (JStr "Active")
  /\ isInstance acm_Certificate
       (resolve {| type := iam_AccessKey;
                   props := <["__pulumiType" := JStr acm_Certificate]>
                              (props sampleActiveKey) |}) = false.
Proof.
  split.
  - destruct (resolve_type_token sampleActiveKey) as (_ & Hother & _).
    rewrite (Hother "status"); [reflexivity | discriminate].
  - destruct (resolve_type_token sampleActiveKey) as (_ & _ & Htype & Hspoof).
    change (isInstance acm_Certificate
              (resolve {| type := type sampleActiveKey;
                          props := <["__pulumiType" := JStr acm_Certificate]>
                                     (props sampleActiveKey) |}) = false).
    rewrite Hspoof, Htype. reflexivity.
Defined.

(** ** The composed policy list *)

(** X2: when [getPolicies] succeeds it returns exactly four policies, in the
    order ACM expiration, CMK rotation, access-key rotation, MFA; their
    names are pairwise distinct, every one of them carries the enforcement
    level that was passed in, and the first and third are stack validations
    while the second and fourth are resource validations. *)
Theorem getPolicies_composition pages enforcement settings policies :
  getPolicies pages enforcement settings = Ok policies ->
  List.map name policies =
    ["acm-certificate-expiration"; "cmk-backing-key-rotation-enabled";
     "access-keys-rotated"; "mfa-enabled-for-iam-console-access"]
  /\ NoDup (List.map name policies)
  /\ Forall (fun p => enforcementLevel p = enforcement) policies
  /\ List.map (fun p => match validation p with
                        | validateStack _ => true
                        | validateResource _ => false
                        end) policies = [true; false; true; false].
Proof.
  unfold getPolicies. rewrite iamAccessKeysRotated_range.
  case_decide; [|discriminate]. intros Hok. injection Hok as <-.
  split; [reflexivity|]. split; [|split; [|reflexivity]].
  - simpl. apply (bool_decide_unpack _). reflexivity.
  - repeat constructor.
Qed.

Lemma getPolicies_composition_witness :
  exists policies,
    getPolicies 5 mandatory
      {| acmCheckCertificateExpirationMaxDays := None;
         iamAccessKeysRotatedMaxDays := Some 30 |} = Ok policies
    /\ Forall (fun p => enforcementLevel p = mandatory) policies
    /\ length policies = 4%nat.
Proof.
  eexists. split; [reflexivity|].
  destruct (getPolicies_composition 5 mandatory
              {| acmCheckCertificateExpirationMaxDays := None;
                 iamAccessKeysRotatedMaxDays := Some 30 |} _ eq_refl)
    as (_ & _ & Hlevels & _).
  split; [exact Hlevels | reflexivity].
Defined.

(** ** Loops that are cut short *)



Lemma violationsOf_app es1 es2 :
  violationsOf (es1 ++ es2) = violationsOf es1 ++ violationsOf es2.
Proof. apply omap_app. Qed.

(** ** Certificates: requests, failures and the threshold *)

(** One certificate: one request, then at most one violation. *)
Lemma acmCheckCertificate_shape maxDaysUntilExpiration (certInStack : ResolvedResource) w c :
  exists o c1 vs,
    acmCheckCertificate maxDaysUntilExpiration certInStack w c
    = (o, c1, DescribeCertificate (getProp "id" certInStack) :: vs)
    /\ o ≠ OutOfFuel
    /\ requestsOf vs = []
    /\ (length (violationsOf vs) <= 1)%nat
    /\ calls c1 = S (calls c).
Proof.
  rewrite acmCheckCertificate_run. cbv zeta.
  destruct (describeCertificate w (calls c) (getProp "id" certInStack)) as [resp|err].
  - destruct (Certificate resp ≫= NotAfter) as [notAfter|].
    + destruct (_ <? _); eexists _, _, _; (split; [reflexivity|]);
        (split; [discriminate|]); (split; [reflexivity|]); split; simpl; lia.
    + eexists _, _, _. split; [reflexivity|]. split; [discriminate|].
      split; [reflexivity|]. split; simpl; lia.
  - eexists _, _, _. split; [reflexivity|]. split; [discriminate|].
    split; [reflexivity|]. split; simpl; lia.
Qed.

Lemma acm_loop_requests maxDaysUntilExpiration (certs : list ResolvedResource) w :
  forall c, exists o c' es,
    forOf certs (acmCheckCertificate maxDaysUntilExpiration) w c = (o, c', es)
    /\ o ≠ OutOfFuel
    /\ requestsOf es `prefix_of`
       List.map (fun cert => DescribeCertificate (getProp "id" cert)) certs
    /\ (o = Returned tt ->
        requestsOf es =
        List.map (fun cert => DescribeCertificate (getProp "id" cert)) certs)
    /\ (length (violationsOf es) <= length (requestsOf es))%nat
    /\ calls c' = (calls c + length (requestsOf es))%nat.
Proof.
  induction certs as [|cert certs IH]; intros c.
  - exists (Returned tt), c, []. split; [reflexivity|]. split; [discriminate|].
    split; [apply prefix_nil|]. split; [reflexivity|]. split; simpl; lia.
  - destruct (acmCheckCertificate_shape maxDaysUntilExpiration cert w c)
      as (o & c1 & vs & Hrun & Ho & Hq & Hv & Hc1).
    rewrite forOf_cons, run_bind, Hrun.
    destruct o as [[]|err|]; [| |contradiction].
    + destruct (IH c1) as (o2 & c2 & es2 & -> & Ho2 & Hpre & Hall & Hv2 & Hc2).
      eexists _, _, _. split; [reflexivity|]. split; [exact Ho2|].
      simpl requestsOf. rewrite requestsOf_app, Hq. simpl app.
      simpl violationsOf. rewrite violationsOf_app, length_app.
      split; [apply prefix_cons, Hpre|].
      split; [intros ->; simpl; f_equal; apply Hall; reflexivity|].
      split; simpl; lia.
    + eexists _, _, _. split; [reflexivity|]. split; [discriminate|].
      simpl requestsOf. rewrite Hq.
      split; [apply prefix_cons, prefix_nil|]. split; [discriminate|].
      split; simpl in *; lia.
Qed.

(** X3: the ACM validation returns at once and normally, without waiting
    for its body.  The body, which goes on by itself, asks the provider once
    for every certificate of the stack, in stack order and with the
    certificate's [id] as the ARN (a certificate without an [id] is not
    skipped: it is asked for with an undefined ARN); resources of other
    types cause no request.  The body always ends; if it ends normally,
    every certificate has been asked for, and if it ends with an error, a
    leading part of them, and that error does not reach the caller of the
    validation.  The body never reports more violations than it made
    requests. *)
Theorem acmCheckCertificateExpiration_requests level maxDaysUntilExpiration
    (stack : list PolicyResource) w c :
  exists v o c' es,
    validation (acmCheckCertificateExpiration level maxDaysUntilExpiration)
    = validateStack v
    /\ v {| resources := stack |} w c
       = {| returned := Returned tt; floating := (o, c', es) |}
    /\ o ≠ OutOfFuel
    /\ let expected :=
         List.map (fun r => DescribeCertificate (getProp "id" (props r)))
                  (List.filter (hasType acm_Certificate) stack) in
       requestsOf es `prefix_of` expected
       /\ (o = Returned tt -> requestsOf es = expected)
       /\ (length (violationsOf es) <= length (requestsOf es))%nat
       /\ calls c' = (calls c + length (requestsOf es))%nat.
Proof.
  destruct (acm_loop_requests maxDaysUntilExpiration
              (List.map resolve (List.filter (hasType acm_Certificate) stack)) w c)
    as (o & c' & es & Hrun & Ho & Hpre & Hall & Hv & Hc).
  rewrite List.map_map in Hpre, Hall.
  assert (Hmap :
    List.map (fun r => DescribeCertificate (getProp "id" (resolve r)))
      (List.filter (hasType acm_Certificate) stack)
    = List.map (fun r => DescribeCertificate (getProp "id" (props r)))
      (List.filter (hasType acm_Certificate) stack)).
  { apply List.map_ext. intros r.
    rewrite getProp_resolve_other by discriminate. reflexivity. }
  rewrite Hmap in Hpre, Hall.
  eexists _, o, c', es. split; [reflexivity|]. split.
  { unfold validateTypedResources. simpl resources.
    rewrite typed_filter_resolve, Hrun. reflexivity. }
  split; [exact Ho|]. cbv zeta. auto.
Qed.

Lemma acmCheckCertificateExpiration_requests_witness :
  exists v c' es,
    validation (acmCheckCertificateExpiration None 14) = validateStack v
    /\ v {| resources := [sampleUnissuedCertificate; sampleBucket; sampleCertificate] |}
         pagedWorld atStart
       = {| returned := Returned tt; floating := (Returned tt, c', es) |}
    /\ requestsOf es = [DescribeCertificate JUndefined;
                        DescribeCertificate (JStr "arn:aws:acm:cert/1")].
Proof.
  destruct (acmCheckCertificateExpiration_requests None 14
              [sampleUnissuedCertificate; sampleBucket; sampleCertificate]
              pagedWorld atStart)
    as (v & o & c' & es & Hv & Hrun & _ & _ & Hall & _).
  injection Hv as <-.
  assert (Ho : o = Returned tt).
  { revert Hrun. vm_compute. intros Hrun. injection Hrun as <- _ _. reflexivity. }
  subst o. eexists _, c', es. split; [reflexivity|]. split; [exact Hrun|].
  apply Hall. reflexivity.
Defined.



Lemma floor_days_lt (a m : Z) : a / msInDay < m <-> a < m * msInDay.
Proof.
  pose proof msInDay_pos as Hpos.
  pose proof (Z.mul_div_le a msInDay Hpos).
  pose proof (Z.mul_succ_div_gt a msInDay Hpos).
  split; intros Hlt; nia.
Qed.

Lemma floor_days_gt (a m : Z) : a / msInDay > m <-> (m + 1) * msInDay <= a.
Proof.
  pose proof msInDay_pos as Hpos.
  pose proof (Z.mul_div_le a msInDay Hpos).
  pose proof (Z.mul_succ_div_gt a msInDay Hpos).
  split; intros Hlt; nia.
Qed.

(** X5: for a threshold that is a whole number of days, as the default 14
    is (the source takes any number; a fractional one is outside this
    statement), a certificate whose description carries an expiry is
    reported exactly when it expires less than [maxDaysUntilExpiration]
    times 24 hours from now: for such a threshold the rounding down does not
    move the cut-off, and a certificate with exactly that much time left is
    not reported.  A certificate that has already expired is reported for
    every whole threshold that is not negative, with a negative day count. *)
Theorem acmCheckCertificate_threshold maxDaysUntilExpiration
    (certInStack : ResolvedResource) w c resp detail notAfter :
  describeCertificate w (calls c) (getProp "id" certInStack) = Fulfilled resp ->
  Certificate resp = Some detail ->
  NotAfter detail = Some notAfter ->
  let remaining := notAfter - Date_now w (reads c) in
  let reported :=
    violationsOf (snd (acmCheckCertificate maxDaysUntilExpiration certInStack w c)) in
  (remaining < maxDaysUntilExpiration * msInDay <->
     reported = [acmViolationMessage (remaining / msInDay) maxDaysUntilExpiration])
  /\ (maxDaysUntilExpiration * msInDay <= remaining <-> reported = [])
  /\ (remaining < 0 -> 0 <= maxDaysUntilExpiration ->
      remaining / msInDay < 0
      /\ reported = [acmViolationMessage (remaining / msInDay) maxDaysUntilExpiration]).
Proof.
  intros Hresp Hdetail Hafter remaining reported.
  assert (Hrep : reported =
    if remaining / msInDay <? maxDaysUntilExpiration
    then [acmViolationMessage (remaining / msInDay) maxDaysUntilExpiration]
    else []).
  { unfold reported. rewrite acmCheckCertificate_run, Hresp, Hdetail. simpl.
    rewrite Hafter. cbv zeta. fold remaining. destruct (_ <? _); reflexivity. }
  rewrite Hrep. clear Hrep reported.
  pose proof (floor_days_lt remaining maxDaysUntilExpiration) as Hlt.
  destruct (Z.ltb_spec (remaining / msInDay) maxDaysUntilExpiration) as [Hd|Hd].
  - split; [split; [reflexivity | intros _; apply Hlt, Hd]|].
    split; [split; [intros Hge; apply Hlt in Hd; lia | discriminate]|].
    intros Hneg Hmax. split; [|reflexivity].
    apply floor_days_lt. simpl. exact Hneg.
  - assert (Hge : maxDaysUntilExpiration * msInDay <= remaining).
    { destruct (Z.le_gt_cases (maxDaysUntilExpiration * msInDay) remaining) as [Hc|Hc];
        [exact Hc|]. apply Hlt in Hc. lia. }
    split; [split; [lia | discriminate]|].
    split; [split; [reflexivity | intros _; exact Hge]|].
    intros Hneg Hmax. pose proof msInDay_pos. nia.
Qed.

Lemma acmCheckCertificate_threshold_witness :
  violationsOf (snd (acmCheckCertificate 5 (resolve sampleCertificate) pagedWorld atStart))
  = ["certificate expires in 4 (max allowed 5 days)"]
  /\ violationsOf (snd (acmCheckCertificate 3 (resolve sampleCertificate) flakyWorld atStart))
     = []
  /\ violationsOf (snd (acmCheckCertificate 0 (resolve sampleCertificate) lapsedWorld
                          atStart))
     = ["certificate expires in -10 (max allowed 0 days)"].
Proof.
  split; [|split].
  - destruct (acmCheckCertificate_threshold 5 (resolve sampleCertificate) pagedWorld atStart
                _ _ _ eq_refl eq_refl eq_refl) as (Hreported & _ & _).
    apply Hreported. reflexivity.
  - destruct (acmCheckCertificate_threshold 3 (resolve sampleCertificate) flakyWorld atStart
                _ _ _ eq_refl eq_refl eq_refl) as (_ & Hquiet & _).
    apply Hquiet. vm_compute. discriminate.
  - destruct (acmCheckCertificate_threshold 0 (resolve sampleCertificate) lapsedWorld atStart
                _ _ _ eq_refl eq_refl eq_refl) as (_ & _ & Hlapsed).
    apply Hlapsed; [reflexivity | lia].
Defined.

(** ** Access keys: the threshold, and the items of a page *)

(** X6: for a [maxKeyAge] that is a whole number of days, as the default 90
    is (the source takes any number in [1, 730]; a fractional one is outside
    this statement), a listed key that correlates with the resource is
    reported exactly from the moment it is [maxKeyAge + 1] full days old: a
    key of [maxKeyAge] days and 23 hours is not.  A key whose creation date
    lies in the future is not reported for any whole threshold that is not
    negative. *)
Theorem iamCheckMetadata_threshold maxKeyAge (instance : ResolvedResource)
    (accessKey : AccessKeyMetadata) (s : string) (created : Z) w c :
  getProp "id" instance = JStr s ->
  AccessKeyId accessKey = Some s ->
  CreateDate accessKey = Some created ->
  let age := Date_now w (reads c) - created in
  let reported :=
    violationsOf (snd (iamCheckMetadata maxKeyAge instance accessKey w c)) in
  ((maxKeyAge + 1) * msInDay <= age <->
     reported = [iamViolationMessage maxKeyAge (age / msInDay)])
  /\ (age < (maxKeyAge + 1) * msInDay <-> reported = [])
  /\ (age < 0 -> 0 <= maxKeyAge -> reported = []).
Proof.
  intros Hid Hkey Hdate age reported.
  assert (Hrep : reported =
    if age / msInDay >? maxKeyAge
    then [iamViolationMessage maxKeyAge (age / msInDay)] else []).
  { unfold reported. rewrite iamCheckMetadata_run, Hid, Hkey, Hdate.
    simpl strictEqOptStr. rewrite String.eqb_refl. cbv zeta. fold age.
    destruct (_ >? _); reflexivity. }
  rewrite Hrep. clear Hrep reported.
  pose proof (floor_days_gt age maxKeyAge) as Hgt.
  pose proof msInDay_pos as Hpos.
  destruct (Z.gtb_spec (age / msInDay) maxKeyAge) as [Hd|Hd].
  - assert (Hold : (maxKeyAge + 1) * msInDay <= age) by (apply Hgt; lia).
    split; [split; [reflexivity | intros _; exact Hold]|].
    split; [split; [lia | discriminate]|].
    intros Hneg Hmax. nia.
  - assert (Hyoung : age < (maxKeyAge + 1) * msInDay).
    { destruct (Z.lt_ge_cases age ((maxKeyAge + 1) * msInDay)) as [Hc|Hc];
        [exact Hc|]. apply Hgt in Hc. lia. }
    split; [split; [lia | discriminate]|].
    split; [split; [reflexivity | intros _; exact Hyoung]|].
    reflexivity.
Qed.

Lemma iamCheckMetadata_threshold_witness :
  violationsOf (snd (iamCheckMetadata 149 (resolve sampleActiveKey) sampleMetadata
                       pagedWorld atStart))
  = ["access key must be rotated within 149 days (key is 150 days old)"]
  /\ violationsOf (snd (iamCheckMetadata 150 (resolve sampleActiveKey) sampleMetadata
                          pagedWorld atStart)) = []
  /\ violationsOf (snd (iamCheckMetadata 0 (resolve sampleActiveKey)
                          {| AccessKeyId := Some "AKIA2";
                             CreateDate := Some (201 * msInDay) |}
                          pagedWorld atStart)) = [].
Proof.
  split; [|split].
  - destruct (iamCheckMetadata_threshold 149 (resolve sampleActiveKey) sampleMetadata
                "AKIA2" (50 * msInDay) pagedWorld atStart eq_refl eq_refl eq_refl)
      as (Hold & _ & _).
    apply Hold. vm_compute. discriminate.
  - destruct (iamCheckMetadata_threshold 150 (resolve sampleActiveKey) sampleMetadata
                "AKIA2" (50 * msInDay) pagedWorld atStart eq_refl eq_refl eq_refl)
      as (_ & Hyoung & _).
    apply Hyoung. reflexivity.
  - destruct (iamCheckMetadata_threshold 0 (resolve sampleActiveKey)
                {| AccessKeyId := Some "AKIA2"; CreateDate := Some (201 * msInDay) |}
                "AKIA2" (201 * msInDay) pagedWorld atStart eq_refl eq_refl eq_refl)
      as (_ & _ & Hfuture).
    apply Hfuture; [reflexivity | lia].
Defined.

Lemma iamCheckMetadata_constant_clock maxKeyAge (instance : ResolvedResource)
    (accessKey : AccessKeyMetadata) w c now :
  (forall k, Date_now w k = now) ->
  exists c',
    iamCheckMetadata maxKeyAge instance accessKey w c
    = (Returned tt, c',
       match overdueDays maxKeyAge instance now accessKey with
       | Some days => [Violation (iamViolationMessage maxKeyAge days)]
       | None => []
       end)
    /\ calls c' = calls c.
Proof.
  intros Hclock. rewrite iamCheckMetadata_run. unfold overdueDays.
  destruct (strictEqOptStr _ _); [|eexists; split; reflexivity].
  destruct (CreateDate accessKey) as [created|]; [|eexists; split; reflexivity].
  cbv zeta. simpl. rewrite Hclock.
  destruct (_ >? _); eexists; split; reflexivity.
Qed.

(** X7: with the clock standing still during a page, the items of the page
    are judged one by one and in order: the page produces one violation for
    every listed item that correlates with the resource and is over age,
    each with its own age, and nothing else.  Nothing is deduplicated: a key
    listed twice is reported twice. *)
Theorem iamCheckPage_reports_each_item maxKeyAge (instance : ResolvedResource)
    (items : list AccessKeyMetadata) w c now :
  (forall k, Date_now w k = now) ->
  let report (its : list AccessKeyMetadata) :=
    (fun days => Violation (iamViolationMessage maxKeyAge days))
      <$> omap (overdueDays maxKeyAge instance now) its in
  (exists c',
     forOf items (iamCheckMetadata maxKeyAge instance) w c
     = (Returned tt, c', report items)
     /\ calls c' = calls c)
  /\ (exists c',
     forOf (items ++ items) (iamCheckMetadata maxKeyAge instance) w c
     = (Returned tt, c', report items ++ report items)).
Proof.
  intros Hclock report.
  assert (Hpage : forall its c0, exists c',
    forOf its (iamCheckMetadata maxKeyAge instance) w c0
    = (Returned tt, c', report its) /\ calls c' = calls c0).
  { induction its as [|item its IH]; intros c0.
    - exists c0. split; reflexivity.
    - destruct (iamCheckMetadata_constant_clock maxKeyAge instance item w c0 now Hclock)
        as (c1 & Hitem & Hc1).
      destruct (IH c1) as (c2 & Hrest & Hc2).
      exists c2. rewrite forOf_cons, run_bind, Hitem, Hrest.
      split; [|congruence]. unfold report. simpl omap.
      destruct (overdueDays maxKeyAge instance now item); reflexivity. }
  split; [apply Hpage|].
  destruct (Hpage (items ++ items) c) as (c' & Hrun & _).
  exists c'. rewrite Hrun. unfold report. rewrite omap_app, fmap_app. reflexivity.
Qed.

Lemma iamCheckPage_reports_each_item_witness :
  exists c',
    forOf [otherMetadata; sampleMetadata; sampleMetadata]
          (iamCheckMetadata 90 (resolve sampleActiveKey)) lapsedWorld atStart
    = (Returned tt, c',
       [Violation "access key must be rotated within 90 days (key is 150 days old)";
        Violation "access key must be rotated within 90 days (key is 150 days old)"]).
Proof.
  destruct (iamCheckPage_reports_each_item 90 (resolve sampleActiveKey)
              [otherMetadata; sampleMetadata; sampleMetadata] lapsedWorld atStart
              (200 * msInDay)) as ((c' & Hrun & _) & _).
  - intros k. reflexivity.
  - exists c'. exact Hrun.
Defined.

(** ** Access keys: the requests of the pagination loop *)

Lemma iamListPages_chain maxKeyAge (instance : ResolvedResource) w (pages : nat) :
  forall token c, exists o c' es n,
    iamListPages pages maxKeyAge instance token w c = (o, c', es)
    /\ calls c' = (calls c + n)%nat
    /\ (n <= pages)%nat
    /\ requestsOf es =
       List.map (fun i => ListAccessKeys (getProp "user" instance)
                            (tokenSent w (getProp "user" instance) (calls c) token i))
                (seq 0 n).
Proof.
  induction pages as [|pages IH]; intros token c.
  - exists OutOfFuel, c, [], 0%nat. split; [reflexivity|].
    split; [lia|]. split; [lia | reflexivity].
  - destruct (listAccessKeys w (calls c) (getProp "user" instance) token)
      as [r|err] eqn:Hr.
    + destruct (iamListPages_fulfilled pages maxKeyAge instance token w c r Hr)
        as (c1 & es1 & Hc1 & Hq1 & ->).
      destruct (default false (IsTruncated r)).
      * destruct (IH (Marker r) c1) as (o & c2 & es2 & n & -> & Hc2 & Hn & Hq2).
        exists o, c2, (ListAccessKeys (getProp "user" instance) token :: es1 ++ es2), (S n).
        split; [reflexivity|]. split; [lia|]. split; [lia|].
        simpl requestsOf. rewrite requestsOf_app, Hq1, Hq2. simpl app.
        change (seq 0 (S n)) with (0%nat :: seq 1 n).
        rewrite <- seq_shift. cbn [List.map]. rewrite List.map_map.
        f_equal. apply List.map_ext. intros i. cbn [tokenSent].
        rewrite Hr, Hc1. reflexivity.
      * exists (Returned tt), c1, (ListAccessKeys (getProp "user" instance) token :: es1),
               1%nat.
        split; [reflexivity|]. split; [lia|]. split; [lia|].
        simpl. rewrite Hq1. reflexivity.
    + rewrite (iamListPages_failed _ _ _ _ _ _ _ Hr).
      eexists _, _, _, 1%nat. split; [reflexivity|].
      split; [simpl; lia|]. split; [lia | reflexivity].
Qed.

(** X8: however a run of the pagination loop ends, its requests form one
    chain: all are [listAccessKeys] for the [user] of the resource, the
    first carries no marker, and each later one carries the [Marker] of the
    page that came just before it.  The loop makes no other SDK request,
    and at most one request per iteration. *)
Theorem iamListPages_marker_chain maxKeyAge (instance : ResolvedResource) w c
    (pages : nat) :
  let UserName := getProp "user" instance in
  exists o c' es n,
    iamListPages pages maxKeyAge instance None w c = (o, c', es)
    /\ calls c' = (calls c + n)%nat
    /\ (n <= pages)%nat
    /\ requestsOf es =
       List.map (fun i => ListAccessKeys UserName
                            (tokenSent w UserName (calls c) None i)) (seq 0 n)
    /\ tokenSent w UserName (calls c) None 0 = None
    /\ (forall i r,
          pageSeen w UserName (calls c) None i = Fulfilled r ->
          tokenSent w UserName (calls c) None (S i) = Marker r).
Proof.
  intros UserName.
  destruct (iamListPages_chain maxKeyAge instance w pages None c)
    as (o & c' & es & n & Hrun & Hc & Hn & Hq).
  exists o, c', es, n. split; [exact Hrun|]. split; [exact Hc|].
  split; [exact Hn|]. split; [exact Hq|]. split; [reflexivity|].
  generalize (calls c) (@None string).
  intros k token i. revert k token.
  induction i as [|i IH]; intros k token r Hpage.
  - simpl in *. rewrite Hpage. reflexivity.
  - simpl in Hpage. simpl tokenSent.
    destruct (listAccessKeys w k UserName token) as [r0|err]; [|discriminate].
    apply (IH (S k) (Marker r0) r Hpage).
Qed.

Lemma iamListPages_marker_chain_witness :
  exists o c' es,
    iamListPages 7 90 (resolve sampleActiveKey) None pagedWorld atStart = (o, c', es)
    /\ requestsOf es = [ListAccessKeys (JStr "bob") None;
                        ListAccessKeys (JStr "bob") (Some "page2");
                        ListAccessKeys (JStr "bob") (Some "page3")].
Proof.
  destruct (iamListPages_marker_chain 90 (resolve sampleActiveKey) pagedWorld atStart 7)
    as (o & c' & es & n & Hrun & Hc & _ & Hq & _ & Hnext).
  exists o, c', es. split; [exact Hrun|].
  assert (Hn : n = 3%nat).
  { revert Hrun. vm_compute. intros Hrun. injection Hrun as _ <- _.
    simpl in Hc. lia. }
  subst n. rewrite Hq. cbn [seq List.map].
  rewrite (Hnext 0%nat _ eq_refl), (Hnext 1%nat _ eq_refl). reflexivity.
Defined.

(** X9: a page that is marked as truncated but carries no marker makes the
    loop ask again without a marker.  With a provider whose answer depends
    on the request alone, the loop then asks for the first page over and
    over and never ends. *)
Theorem iamListPages_restarts_without_marker maxKeyAge (instance : ResolvedResource)
    w c r :
  (forall k k' UserName token,
      listAccessKeys w k UserName token = listAccessKeys w k' UserName token) ->
  listAccessKeys w (calls c) (getProp "user" instance) None = Fulfilled r ->
  IsTruncated r = Some true ->
  Marker r = None ->
  forall pages, exists c' es,
    iamListPages pages maxKeyAge instance None w c = (OutOfFuel, c', es)
    /\ requestsOf es = replicate pages (ListAccessKeys (getProp "user" instance) None).
Proof.
  intros Hstateless Hr Htr Hmarker pages. revert c Hr.
  induction pages as [|pages IH]; intros c Hr.
  - exists c, []. split; reflexivity.
  - destruct (iamListPages_fulfilled pages maxKeyAge instance None w c r Hr)
      as (c1 & es1 & Hc1 & Hq1 & ->).
    rewrite Htr, Hmarker. simpl default.
    destruct (IH c1) as (c2 & es2 & -> & Hq2).
    { rewrite <- Hr. apply Hstateless. }
    eexists _, _. split; [reflexivity|].
    simpl requestsOf. rewrite requestsOf_app, Hq1, Hq2. reflexivity.
Qed.

Lemma iamListPages_restarts_without_marker_witness :
  exists c' es,
    iamListPages 3 90 (resolve sampleActiveKey) None restartWorld atStart
    = (OutOfFuel, c', es)
    /\ requestsOf es = [ListAccessKeys (JStr "bob") None;
                        ListAccessKeys (JStr "bob") None;
                        ListAccessKeys (JStr "bob") None].
Proof.
  apply (iamListPages_restarts_without_marker 90 (resolve sampleActiveKey)
           restartWorld atStart
           {| AccessKeyMetadataList := [ sampleMetadata ];
              IsTruncated := Some true; Marker := None |}).
  - intros k k' UserName token. reflexivity.
  - reflexivity.
  - reflexivity.
  - reflexivity.
Defined.

(** ** Access keys: the whole validation *)

Lemma iamCheckAccessKey_inactive pages maxKeyAge (instance : ResolvedResource) w c :
  isActiveKey instance = false ->
  iamCheckAccessKey pages maxKeyAge instance w c = (Returned tt, c, []).
Proof.
  unfold isActiveKey, iamCheckAccessKey. intros H.
  rewrite <- negb_andb, H. reflexivity.
Qed.

Lemma iamCheckAccessKey_active_run pages maxKeyAge (instance : ResolvedResource) :
  isActiveKey instance = true ->
  iamCheckAccessKey pages maxKeyAge instance
  = iamListPages pages maxKeyAge instance None.
Proof.
  unfold isActiveKey, iamCheckAccessKey. intros H.
  rewrite <- negb_andb, H. reflexivity.
Qed.

Lemma isActiveKey_resolve (r : PolicyResource) :
  isActiveKey (resolve r) = isActiveKey (props r).
Proof.
  unfold isActiveKey. rewrite !getProp_resolve_other by discriminate. reflexivity.
Qed.

Lemma active_keys_of_stack (stack : list PolicyResource) :
  List.filter isActiveKey
    (List.filter (isInstance iam_AccessKey) (List.map resolve stack))
  = List.map resolve
      (List.filter (fun r => hasType iam_AccessKey r && isActiveKey (props r)) stack).
Proof.
  rewrite typed_filter_resolve.
  induction stack as [|r stack IH]; [reflexivity|]. simpl.
  destruct (hasType iam_AccessKey r); simpl; [|exact IH].
  rewrite isActiveKey_resolve. destruct (isActiveKey (props r)); simpl; congruence.
Qed.

Lemma iam_loop_single_page pages maxKeyAge (keys : list ResolvedResource) w :
  (1 <= pages)%nat ->
  (forall k UserName token, exists r,
      listAccessKeys w k UserName token = Fulfilled r
      /\ default false (IsTruncated r) = false) ->
  forall c, exists c' es,
    forOf keys (iamCheckAccessKey pages maxKeyAge) w c = (Returned tt, c', es)
    /\ requestsOf es =
       List.map (fun instance => ListAccessKeys (getProp "user" instance) None)
                (List.filter isActiveKey keys)
    /\ calls c' = (calls c + length (List.filter isActiveKey keys))%nat.
Proof.
  intros Hpages Hsingle.
  destruct pages as [|pages]; [lia|].
  induction keys as [|instance keys IH]; intros c.
  - exists c, []. split; [reflexivity|]. split; [reflexivity | simpl; lia].
  - rewrite forOf_cons, run_bind. simpl List.filter.
    destruct (isActiveKey instance) eqn:Hactive.
    + rewrite (iamCheckAccessKey_active_run _ _ _ Hactive).
      destruct (Hsingle (calls c) (getProp "user" instance) None) as (r & Hr & Hlast).
      destruct (iamListPages_fulfilled pages maxKeyAge instance None w c r Hr)
        as (c1 & es1 & Hc1 & Hq1 & ->).
      rewrite Hlast.
      destruct (IH c1) as (c2 & es2 & -> & Hq2 & Hc2).
      eexists _, _. split; [reflexivity|].
      simpl requestsOf. rewrite requestsOf_app, Hq1, Hq2.
      split; [reflexivity | simpl; lia].
    + rewrite (iamCheckAccessKey_inactive _ _ _ _ _ Hactive).
      destruct (IH c) as (c2 & es2 & -> & Hq2 & Hc2).
      eexists _, _. split; [reflexivity|]. split; [exact Hq2 | exact Hc2].
Qed.

(** X10: the access-keys-rotated validation returns at once and normally,
    without waiting for its body.  With a provider that answers every
    listing with a single, untruncated page, the body, which goes on by
    itself, ends normally for any stack, and it has made exactly one request
    for each access key of the stack that is provisioned and active, in
    stack order, for the [user] of that key and without a marker; other
    resources cause no request. *)
Theorem iamAccessKeysRotated_one_request_per_active_key pages level maxKeyAge p
    (stack : list PolicyResource) w c :
  (1 <= pages)%nat ->
  (forall k UserName token, exists r,
      listAccessKeys w k UserName token = Fulfilled r
      /\ default false (IsTruncated r) = false) ->
  iamAccessKeysRotated pages level maxKeyAge = Ok p ->
  exists v c' es,
    validation p = validateStack v
    /\ v {| resources := stack |} w c
       = {| returned := Returned tt; floating := (Returned tt, c', es) |}
    /\ requestsOf es =
       List.map (fun r => ListAccessKeys (getProp "user" (props r)) None)
         (List.filter (fun r => hasType iam_AccessKey r && isActiveKey (props r)) stack).
Proof.
  intros Hpages Hsingle Hp. rewrite iamAccessKeysRotated_range in Hp.
  case_decide; [|discriminate]. injection Hp as <-.
  destruct (iam_loop_single_page pages maxKeyAge
              (List.filter (isInstance iam_AccessKey) (List.map resolve stack))
              w Hpages Hsingle c) as (c' & es & Hrun & Hq & _).
  eexists _, c', es. split; [reflexivity|]. split.
  { unfold validateTypedResources. simpl resources. rewrite Hrun. reflexivity. }
  rewrite Hq, active_keys_of_stack, List.map_map.
  apply List.map_ext. intros r.
  rewrite getProp_resolve_other by discriminate. reflexivity.
Qed.

Lemma iamAccessKeysRotated_one_request_per_active_key_witness :
  exists p v c' es,
    iamAccessKeysRotated 1 None 90 = Ok p
    /\ validation p = validateStack v
    /\ v {| resources := [sampleInactiveKey; sampleCertificate; sampleActiveKey;
                          sampleUnprovisionedKey] |} lapsedWorld atStart
       = {| returned := Returned tt; floating := (Returned tt, c', es) |}
    /\ requestsOf es = [ListAccessKeys (JStr "bob") None].
Proof.
  assert (Hsingle : forall (k : nat) (UserName : JsValue) (token : option string),
            exists r, listAccessKeys lapsedWorld k UserName token = Fulfilled r
                      /\ default false (IsTruncated r) = false).
  { intros k UserName token. eexists. split; reflexivity. }
  pose proof (fun q =>
                iamAccessKeysRotated_one_request_per_active_key 1 None 90 q
                  [sampleInactiveKey; sampleCertificate; sampleActiveKey;
                   sampleUnprovisionedKey] lapsedWorld atStart
                  (le_n 1) Hsingle) as Hpolicy.
  destruct (Hpolicy _ eq_refl) as (v & c' & es & Hv & Hrun & Hq).
  eexists _, v, c', es. split; [reflexivity|]. split; [exact Hv|].
  split; [exact Hrun | exact Hq].
Defined.



(** ** Resource policies: requests and what the verdict depends on *)

(** X12: for a console-login resource the MFA policy makes exactly one
    request, [listMFADevices] for the [user] of the resource, and reports at
    most one violation after it.  When the provider rejects the request the
    validation throws the provider's error and reports nothing.  A resource
    without a [user] is not skipped: the request goes out with an undefined
    user name, and the violation then names the user 'undefined'. *)
Theorem iamMfaEnabledForConsoleAccess_single_request level
    (instance : ResolvedResource) w c :
  exists v,
    validation (iamMfaEnabledForConsoleAccess level) = validateResource v
    /\ let args := {| rv_type := iam_UserLoginProfile; rv_props := instance |} in
       let user := getProp "user" instance in
       (exists o vs,
           v args w c = (o, called c, ListMFADevices user :: vs)
           /\ o ≠ OutOfFuel
           /\ requestsOf vs = []
           /\ (length vs <= 1)%nat)
       /\ (forall err,
             listMFADevices w (calls c) user = Failed err ->
             v args w c = (Threw err, called c, [ListMFADevices user]))
       /\ (instance !! "user" = None ->
           user = JUndefined
           /\ forall resp,
                listMFADevices w (calls c) JUndefined = Fulfilled resp ->
                MFADevices resp = [] ->
                v args w c =
                (Returned tt, called c,
                 [ListMFADevices JUndefined;
                  Violation "no MFA device enabled for IAM User 'undefined'"])).
Proof.
  eexists. split; [reflexivity|]. intros args user. subst args.
  rewrite validateTypedResource_match.
  split; [|split].
  - unfold mfaCheckLoginProfile. rewrite run_bind, awaitSdk_run. fold user.
    destruct (listMFADevices w (calls c) user) as [resp|err].
    + destruct (MFADevices resp); eexists _, _; (split; [reflexivity|]);
        (split; [discriminate|]); split; [reflexivity | simpl; lia | reflexivity | simpl; lia].
    + eexists _, _. split; [reflexivity|]. split; [discriminate|].
      split; [reflexivity | simpl; lia].
  - intros err Hfail. unfold mfaCheckLoginProfile.
    rewrite run_bind, awaitSdk_run. fold user. rewrite Hfail. reflexivity.
  - intros Habsent.
    assert (Huser : user = JUndefined) by (apply getProp_absent, Habsent).
    split; [exact Huser|]. intros resp Hresp Hnone.
    rewrite (mfaCheckLoginProfile_run instance w c resp).
    + fold user. rewrite Huser, Hnone. reflexivity.
    + fold user. rewrite Huser. exact Hresp.
Qed.

Lemma iamMfaEnabledForConsoleAccess_single_request_witness :
  exists v,
    validation (iamMfaEnabledForConsoleAccess None) = validateResource v
    /\ v {| rv_type := iam_UserLoginProfile; rv_props := props sampleLoginProfile |}
         outageWorld atStart
       = (Threw "ServiceUnavailable", called atStart, [ListMFADevices (JStr "carol")])
    /\ v {| rv_type := iam_UserLoginProfile; rv_props := props sampleKmsKey |}
         quietWorld atStart
       = (Returned tt, called atStart,
          [ListMFADevices JUndefined;
           Violation "no MFA device enabled for IAM User 'undefined'"]).
Proof.
  destruct (iamMfaEnabledForConsoleAccess_single_request None
              (props sampleLoginProfile) outageWorld atStart)
    as (v & Hv & _ & Hfail & _).
  destruct (iamMfaEnabledForConsoleAccess_single_request None
              (props sampleKmsKey) quietWorld atStart)
    as (v' & Hv' & _ & _ & Hanon).
  rewrite Hv in Hv'. injection Hv' as <-.
  exists v. split; [exact Hv|]. split.
  - apply Hfail. reflexivity.
  - destruct (Hanon eq_refl) as (_ & Hrun).
    apply (Hrun {| MFADevices := [] |}); reflexivity.
Defined.

(** X13: the CMK rotation policy decides on the snapshot alone: for a KMS
    key it makes no SDK request, reads no clock, never throws, and reports
    at most one violation; its result is the same whatever the provider
    would answer, and it depends on no property of the key other than
    [enableKeyRotation]. *)
Theorem cmkBackingKeyRotationEnabled_is_local level (instance : ResolvedResource)
    w c :
  exists v,
    validation (cmkBackingKeyRotationEnabled level) = validateResource v
    /\ let run (properties : ResolvedResource) :=
         v {| rv_type := kms_Key; rv_props := properties |} in
       (exists vs,
           run instance w c = (Returned tt, c, vs)
           /\ requestsOf vs = []
           /\ (length vs <= 1)%nat)
       /\ (forall w' : World, run instance w' c = run instance w c)
       /\ (forall (k : string) (x : JsValue),
             k ≠ "enableKeyRotation" ->
             run (<[k := x]> instance) w c = run instance w c)
       /\ (forall k : string,
             k ≠ "enableKeyRotation" ->
             run (delete k instance) w c = run instance w c).
Proof.
  eexists. split; [reflexivity|]. intros run. subst run. cbv beta.
  split; [|split; [|split]].
  - rewrite validateTypedResource_match, cmkCheckKey_run.
    destruct (truthy _); eexists; (split; [reflexivity|]);
      split; [reflexivity | simpl; lia | reflexivity | simpl; lia].
  - intros w'. rewrite !validateTypedResource_match, !cmkCheckKey_run. reflexivity.
  - intros k x Hk. rewrite !validateTypedResource_match, !cmkCheckKey_run.
    unfold getProp. rewrite lookup_insert_ne by exact Hk. reflexivity.
  - intros k Hk. rewrite !validateTypedResource_match, !cmkCheckKey_run.
    unfold getProp. rewrite lookup_delete_ne by exact Hk. reflexivity.
Qed.

Lemma cmkBackingKeyRotationEnabled_is_local_witness :
  exists v,
    validation (cmkBackingKeyRotationEnabled None) = validateResource v
    /\ v {| rv_type := kms_Key;
            rv_props := <["isEnabled" := JBool true]> (props sampleKmsKey) |}
         outageWorld atStart
       = (Returned tt, atStart,
          [Violation "CMK does not have the key rotation setting enabled"]).
Proof.
  destruct (cmkBackingKeyRotationEnabled_is_local None (props sampleKmsKey)
              outageWorld atStart) as (v & Hv & _ & _ & Hinsert & _).
  exists v. split; [exact Hv|].
  rewrite (Hinsert "isEnabled" (JBool true)) by discriminate.
  injection Hv as <-. reflexivity.
Defined.

(** ** Access keys: the whole listing *)

Lemma iamCheckPage_constant_clock maxKeyAge (instance : ResolvedResource)
    (items : list AccessKeyMetadata) w now :
  (forall k, Date_now w k = now) ->
  forall c, exists c',
    forOf items (iamCheckMetadata maxKeyAge instance) w c
    = (Returned tt, c',
       (fun days => Violation (iamViolationMessage maxKeyAge days))
         <$> omap (overdueDays maxKeyAge instance now) items)
    /\ calls c' = calls c.
Proof.
  intros Hclock. induction items as [|item items IH]; intros c.
  - exists c. split; reflexivity.
  - destruct (iamCheckMetadata_constant_clock maxKeyAge instance item w c now Hclock)
      as (c1 & Hitem & Hc1).
    destruct (IH c1) as (c2 & Hrest & Hc2).
    exists c2. rewrite forOf_cons, run_bind, Hitem, Hrest.
    split; [|congruence]. simpl omap.
    destruct (overdueDays maxKeyAge instance now item); reflexivity.
Qed.

Lemma violationsOf_reported (f : Z -> string) (days : list Z) :
  violationsOf ((fun d => Violation (f d)) <$> days) = f <$> days.
Proof.
  unfold violationsOf. induction days as [|d days IH]; [reflexivity|].
  cbn. f_equal. exact IH.
Qed.

Lemma iamListPages_listing maxKeyAge (instance : ResolvedResource) w now (n : nat) :
  (forall k, Date_now w k = now) ->
  forall pages token c last,
    (forall i, (i < n)%nat -> exists r,
        pageSeen w (getProp "user" instance) (calls c) token i = Fulfilled r
        /\ IsTruncated r = Some true) ->
    pageSeen w (getProp "user" instance) (calls c) token n = Fulfilled last ->
    default false (IsTruncated last) = false ->
    (n < pages)%nat ->
    exists c' es,
      iamListPages pages maxKeyAge instance token w c = (Returned tt, c', es)
      /\ violationsOf es =
         iamViolationMessage maxKeyAge
           <$> omap (overdueDays maxKeyAge instance now)
                    (itemsSeen w (getProp "user" instance) (calls c) token n).
Proof.
  intros Hclock.
  induction n as [|n IH]; intros pages token c last Hmore Hlast Hstop Hpages.
  - destruct pages as [|pages]; [lia|]. simpl in Hlast.
    destruct (iamCheckPage_constant_clock maxKeyAge instance
                (AccessKeyMetadataList last) w now Hclock (called c))
      as (c1 & Hpage & Hc1).
    simpl iamListPages. rewrite run_bind, awaitSdk_run, Hlast, run_bind, Hpage, Hstop.
    rewrite run_ret. eexists _, _. split; [reflexivity|].
    simpl itemsSeen. rewrite Hlast, !app_nil_r.
    change (violationsOf (?e :: ?l)) with (violationsOf l).
    apply violationsOf_reported.
  - destruct pages as [|pages]; [lia|].
    destruct (Hmore 0%nat ltac:(lia)) as (r & Hr & Htr). simpl in Hr.
    destruct (iamCheckPage_constant_clock maxKeyAge instance
                (AccessKeyMetadataList r) w now Hclock (called c))
      as (c1 & Hpage & Hc1).
    simpl iamListPages. rewrite run_bind, awaitSdk_run, Hr, run_bind, Hpage.
    destruct (default false (IsTruncated r)) eqn:Hd;
      [|rewrite Htr in Hd; discriminate].
    destruct (IH pages (Marker r) c1 last) as (c2 & es2 & -> & Hv2).
    + intros i Hi. destruct (Hmore (S i) ltac:(lia)) as (r' & Hr' & Htr').
      simpl in Hr'. rewrite Hr in Hr'. rewrite Hc1. eauto.
    + simpl in Hlast. rewrite Hr in Hlast. rewrite Hc1. exact Hlast.
    + exact Hstop.
    + lia.
    + eexists _, _. split; [reflexivity|].
      cbn [itemsSeen]. rewrite Hr.
      change (violationsOf ([?e] ++ ?l)) with (violationsOf l).
      rewrite violationsOf_app, violationsOf_reported, Hv2.
      rewrite omap_app, fmap_app. rewrite Hc1. reflexivity.
Qed.

(** X14: with the clock standing still, a run of the pagination loop that
    ends after finitely many pages has judged the whole listing: its
    violations are those of the concatenation of all pages met by following
    the markers, one for every listed item that correlates with the
    resource and is over age, in listing order.  No page is left out and
    none is judged twice. *)
Theorem iamListPages_reports_full_listing maxKeyAge (instance : ResolvedResource)
    w c now (n : nat) last :
  let UserName := getProp "user" instance in
  (forall k, Date_now w k = now) ->
  (forall i, (i < n)%nat -> exists r,
      pageSeen w UserName (calls c) None i = Fulfilled r
      /\ IsTruncated r = Some true) ->
  pageSeen w UserName (calls c) None n = Fulfilled last ->
  default false (IsTruncated last) = false ->
  forall pages, (n < pages)%nat ->
  exists c' es,
    iamListPages pages maxKeyAge instance None w c = (Returned tt, c', es)
    /\ violationsOf es =
       iamViolationMessage maxKeyAge
         <$> omap (overdueDays maxKeyAge instance now)
                  (itemsSeen w UserName (calls c) None n).
Proof.
  intros UserName Hclock Hmore Hlast Hstop pages Hpages.
  apply (iamListPages_listing maxKeyAge instance w now n Hclock pages None c last);
    assumption.
Qed.

Lemma iamListPages_reports_full_listing_witness :
  exists c' es,
    iamListPages 7 90 (resolve sampleActiveKey) None pagedWorld atStart
    = (Returned tt, c', es)
    /\ itemsSeen pagedWorld (JStr "bob") 0 None 2 = [otherMetadata; sampleMetadata]
    /\ violationsOf es
       = ["access key must be rotated within 90 days (key is 150 days old)"].
Proof.
  destruct (iamListPages_reports_full_listing 90 (resolve sampleActiveKey)
              pagedWorld atStart (200 * msInDay + 1) 2
              {| AccessKeyMetadataList := []; IsTruncated := Some false; Marker := None |})
    with (pages := 7%nat) as (c' & es & Hrun & Hv).
  - intros k. reflexivity.
  - intros [|[|i]] Hi; [eexists; split; reflexivity..|lia].
  - reflexivity.
  - reflexivity.
  - lia.
  - exists c', es. split; [exact Hrun|]. split; [reflexivity|].
    rewrite Hv. reflexivity.
Defined.
